(** * SimpleBlog: the article model and the application bootstrap

    A shallow embedding of [model/artigo_model.py] and of [create_app] in
    [main.py], followed by the properties of the bootstrap sequence and of
    the [Artigo] record. *)

From Stdlib Require Import ZArith.
From stdpp Require Import base option list gmap strings pretty.

Local Open Scope string_scope.
Local Open Scope Z_scope.

(** ** model/artigo_model.py *)

Module artigo_model.

(** [class StatusArtigo(Enum)]: four members, each with a string value. *)
Inductive StatusArtigo : Set :=
| RASCUNHO
| FINALIZADO
| PUBLICADO
| PAUSADO.

#[global] Instance StatusArtigo_eq_dec : EqDecision StatusArtigo.
Proof. solve_decision. Defined.

(** [member.value] *)
Definition value (s : StatusArtigo) : string :=
  match s with
  | RASCUNHO => "Rascunho"
  | FINALIZADO => "Finalizado"
  | PUBLICADO => "Publicado"
  | PAUSADO => "Pausado"
  end.

(** [list(StatusArtigo)]: the members in definition order. *)
Definition members : list StatusArtigo :=
  [RASCUNHO; FINALIZADO; PUBLICADO; PAUSADO].

(** [StatusArtigo(v)]: lookup by value; [None] stands for [ValueError]. *)
Definition of_value (v : string) : option StatusArtigo :=
  List.find (fun s => bool_decide (value s = v)) members.

(** [datetime.datetime], as its calendar fields. *)
Record datetime : Set := mk_datetime {
  year : Z; month : Z; day : Z;
  hour : Z; minute : Z; second : Z; microsecond : Z
}.

(** [@dataclass class Artigo]: one field per annotated attribute, with
    [Optional[T]] as [option T]. *)
Record Artigo : Set := mk_Artigo {
  id : Z;
  titulo : string;
  conteudo : string;
  status : string;
  usuario_id : Z;
  categoria_id : Z;
  resumo : option string;
  qtde_visualizacoes : option Z;
  data_cadastro : option datetime;
  data_atualizacao : option datetime;
  data_publicacao : option datetime;
  data_pausa : option datetime;
  (* Campos do JOIN (para exibicao) *)
  usuario_nome : option string;
  usuario_email : option string;
  categoria_nome : option string
}.

(** The annotations and defaults of the dataclass, as
    [dataclasses.fields(Artigo)] reports them. *)
Inductive annotation : Set :=
| Tint
| Tstr
| Tdatetime
| TOptional (t : annotation).

Inductive default_value : Set :=
| MISSING
| DefaultNone
| DefaultInt (z : Z).

Record Field : Set := mk_Field {
  field_name : string;
  field_type : annotation;
  field_default : default_value
}.

#[global] Instance annotation_eq_dec : EqDecision annotation.
Proof. solve_decision. Defined.
#[global] Instance default_value_eq_dec : EqDecision default_value.
Proof. solve_decision. Defined.

Definition fields : list Field := [
  mk_Field "id" Tint MISSING;
  mk_Field "titulo" Tstr MISSING;
  mk_Field "conteudo" Tstr MISSING;
  mk_Field "status" Tstr MISSING;
  mk_Field "usuario_id" Tint MISSING;
  mk_Field "categoria_id" Tint MISSING;
  mk_Field "resumo" (TOptional Tstr) DefaultNone;
  mk_Field "qtde_visualizacoes" (TOptional Tint) (DefaultInt 0);
  mk_Field "data_cadastro" (TOptional Tdatetime) DefaultNone;
  mk_Field "data_atualizacao" (TOptional Tdatetime) DefaultNone;
  mk_Field "data_publicacao" (TOptional Tdatetime) DefaultNone;
  mk_Field "data_pausa" (TOptional Tdatetime) DefaultNone;
  mk_Field "usuario_nome" (TOptional Tstr) DefaultNone;
  mk_Field "usuario_email" (TOptional Tstr) DefaultNone;
  mk_Field "categoria_nome" (TOptional Tstr) DefaultNone
].

(** A call [Artigo(...)]: every parameter of the generated [__init__] is
    either passed ([Some v]) or left out ([None]).  For an [Optional]
    field the passed value may itself be Python's [None]. *)
Record Args : Set := mk_Args {
  arg_id : option Z;
  arg_titulo : option string;
  arg_conteudo : option string;
  arg_status : option string;
  arg_usuario_id : option Z;
  arg_categoria_id : option Z;
  arg_resumo : option (option string);
  arg_qtde_visualizacoes : option (option Z);
  arg_data_cadastro : option (option datetime);
  arg_data_atualizacao : option (option datetime);
  arg_data_publicacao : option (option datetime);
  arg_data_pausa : option (option datetime);
  arg_usuario_nome : option (option string);
  arg_usuario_email : option (option string);
  arg_categoria_nome : option (option string)
}.

(** Names of the parameters without a default that the call left out. *)
Definition absent {A : Type} (n : string) (a : option A) : list string :=
  match a with Some _ => [] | None => [n] end.

Definition missing (a : Args) : list string :=
  absent "id" (arg_id a) ++ absent "titulo" (arg_titulo a) ++
  absent "conteudo" (arg_conteudo a) ++ absent "status" (arg_status a) ++
  absent "usuario_id" (arg_usuario_id a) ++
  absent "categoria_id" (arg_categoria_id a).

(** The generated [__init__]: [inl names] is the [TypeError] for missing
    required arguments; otherwise every field is stored as passed, a
    left-out one taking its default.  No value is validated. *)
Definition init (a : Args) : list string + Artigo :=
  match arg_id a, arg_titulo a, arg_conteudo a, arg_status a,
        arg_usuario_id a, arg_categoria_id a with
  | Some i, Some t, Some c, Some s, Some u, Some k =>
      inr {| id := i; titulo := t; conteudo := c; status := s;
             usuario_id := u; categoria_id := k;
             resumo := default None (arg_resumo a);
             qtde_visualizacoes := default (Some 0) (arg_qtde_visualizacoes a);
             data_cadastro := default None (arg_data_cadastro a);
             data_atualizacao := default None (arg_data_atualizacao a);
             data_publicacao := default None (arg_data_publicacao a);
             data_pausa := default None (arg_data_pausa a);
             usuario_nome := default None (arg_usuario_nome a);
             usuario_email := default None (arg_usuario_email a);
             categoria_nome := default None (arg_categoria_nome a) |}
  | _, _, _, _, _, _ => inl (missing a)
  end.

(** [Artigo(id, titulo, conteudo, status, usuario_id, categoria_id)] *)
Definition only_required (i : Z) (t c s : string) (u k : Z) : Args :=
  {| arg_id := Some i; arg_titulo := Some t; arg_conteudo := Some c;
     arg_status := Some s; arg_usuario_id := Some u;
     arg_categoria_id := Some k;
     arg_resumo := None; arg_qtde_visualizacoes := None;
     arg_data_cadastro := None; arg_data_atualizacao := None;
     arg_data_publicacao := None; arg_data_pausa := None;
     arg_usuario_nome := None; arg_usuario_email := None;
     arg_categoria_nome := None |}.

End artigo_model.

(** ** Python exceptions *)

Module python.

(** An exception object: the method resolution order of its class, most
    specific class first (as [type(e).__mro__]), and [str(e)]. *)
Record PyExc : Set := mk_PyExc {
  exc_mro : list string;
  exc_str : string
}.

Definition isinstance (e : PyExc) (cls : string) : bool :=
  bool_decide (cls ∈ exc_mro e).

Definition Exception : string := "Exception".

(** The outcome of running a statement or a call. *)
Inductive Result (A : Type) : Type :=
| Return (a : A)
| Raise (e : PyExc).
Arguments Return {A} a.
Arguments Raise {A} e.

End python.

(** ** The framework objects that main.py drives

    [FastAPI], [add_middleware] and the other methods belong to the web
    framework, not to this repository.  They are modelled by what they do to
    the application object: Starlette's [add_middleware] inserts at the front
    of [user_middleware], [add_exception_handler] assigns into the
    [exception_handlers] dict, [mount], [include_router] and [get] append to
    the route list. *)

Module starlette.
Import python.

Inductive MiddlewareClass : Set :=
| SessionMiddleware
| MiddlewareProtecaoCSRF
| ServerErrorMiddleware
| ExceptionMiddleware.

#[global] Instance MiddlewareClass_eq_dec : EqDecision MiddlewareClass.
Proof. solve_decision. Defined.

(** A stage of request handling: a middleware layer, or the router. *)
Inductive Stage : Set :=
| Layer (cls : MiddlewareClass)
| RouterDispatch.

(** Where an exception is raised: under the exception layer (an endpoint
    or what it calls), or in one of the user middlewares, outside of it. *)
Inductive Origin : Set :=
| UnderRouter
| InMiddleware.

(** [Middleware(cls, **kwargs)] *)
Record Middleware : Set := mk_Middleware {
  mw_cls : MiddlewareClass;
  mw_kwargs : list (string * string)
}.

(** The handlers of [util.exception_handlers] that main.py imports, and
    the ones the framework installs by itself. *)
Inductive ExceptionHandler : Set :=
| http_exception_handler
| validation_exception_handler
| generic_exception_handler
| form_validation_exception_handler
| framework_handler (name : string).

#[global] Instance ExceptionHandler_eq_dec : EqDecision ExceptionHandler.
Proof. solve_decision. Defined.

(** The routers of [routes/*.py] that main.py imports. *)
Inductive Router : Set :=
| auth_router
| chamados_router
| admin_usuarios_router
| admin_config_router
| admin_backups_router
| admin_chamados_router
| usuario_router
| chat_router
| public_router
| examples_router
| admin_categorias_router
| artigos_router.

#[global] Instance Router_eq_dec : EqDecision Router.
Proof. solve_decision. Defined.

(** An entry of [app.router.routes]; [E] is the type of endpoints. *)
Inductive BaseRoute (E : Type) : Type :=
| FrameworkRoute (path : string)
| Mount (path : string) (directory : string) (name : string)
| IncludedRouter (r : Router)
| APIRoute (path : string) (methods : list string) (endpoint : E).
Arguments FrameworkRoute {E} path.
Arguments Mount {E} path directory name.
Arguments IncludedRouter {E} r.
Arguments APIRoute {E} path methods endpoint.

Record FastAPI (E : Type) : Type := mk_FastAPI {
  title : string;
  version : string;
  user_middleware : list Middleware;
  exception_handlers : gmap string ExceptionHandler;
  routes : list (BaseRoute E)
}.
Arguments mk_FastAPI {E} _ _ _ _ _.
Arguments title {E} _.
Arguments version {E} _.
Arguments user_middleware {E} _.
Arguments exception_handlers {E} _.
Arguments routes {E} _.

(** What the framework brings on its own: the handlers and the
    documentation routes a fresh [FastAPI()] carries, and the handlers
    built into [ExceptionMiddleware]. *)
Record Framework : Set := mk_Framework {
  fastapi_exception_handlers : gmap string ExceptionHandler;
  fastapi_routes : list string;
  middleware_exception_handlers : gmap string ExceptionHandler
}.

(** What becomes of an exception: the registered handler that is called to
    build a response, whether that response is sent to the client, and the
    exception that leaves the application, if one does.  The handlers of
    [util.exception_handlers] return a response. *)
Record Handling : Set := mk_Handling {
  answered_by : option ExceptionHandler;
  response_sent : bool;
  propagates : option PyExc
}.

(** The [RuntimeError] of a handled exception that comes too late. *)
Definition response_already_started : PyExc :=
  mk_PyExc ["RuntimeError"; "Exception"; "BaseException"; "object"]
           "Caught handled exception, but response already started.".

Section methods.
Context {E : Type}.

(** [FastAPI(title=..., version=...)] *)
Definition new (fw : Framework) (title version : string) : FastAPI E :=
  mk_FastAPI title version [] (fastapi_exception_handlers fw)
             (FrameworkRoute <$> fastapi_routes fw).

(** [self.user_middleware.insert(0, Middleware(cls, **kwargs))] *)
Definition add_middleware (app : FastAPI E) (cls : MiddlewareClass)
    (kwargs : list (string * string)) : FastAPI E :=
  mk_FastAPI (title app) (version app)
             (mk_Middleware cls kwargs :: user_middleware app)
             (exception_handlers app) (routes app).

(** [self.exception_handlers[cls] = handler] *)
Definition add_exception_handler (app : FastAPI E) (cls : string)
    (handler : ExceptionHandler) : FastAPI E :=
  mk_FastAPI (title app) (version app) (user_middleware app)
             (<[cls := handler]> (exception_handlers app)) (routes app).

Definition add_route (app : FastAPI E) (r : BaseRoute E) : FastAPI E :=
  mk_FastAPI (title app) (version app) (user_middleware app)
             (exception_handlers app) (routes app ++ [r]).

(** [app.mount(path, StaticFiles(directory=d), name=n)] *)
Definition mount (app : FastAPI E) (path directory name : string)
    : FastAPI E :=
  add_route app (Mount path directory name).

(** [app.include_router(r)] *)
Definition include_router (app : FastAPI E) (r : Router) : FastAPI E :=
  add_route app (IncludedRouter r).

(** [@app.get(path)] applied to [endpoint] *)
Definition get (app : FastAPI E) (path : string) (endpoint : E)
    : FastAPI E :=
  add_route app (APIRoute path ["GET"] endpoint).

(** [build_middleware_stack]: the server-error layer, then
    [user_middleware] in list order, then the exception layer; each
    wraps the next, and the last wraps the router.  A request enters
    the layers in this order. *)
Definition build_middleware_stack (app : FastAPI E)
    : list MiddlewareClass :=
  [ServerErrorMiddleware] ++ (mw_cls <$> user_middleware app) ++
  [ExceptionMiddleware].

(** What a request passes, in order: the layers of the stack from the
    outermost to the innermost, then the dispatch by the router. *)
Definition request_path (app : FastAPI E) : list Stage :=
  (Layer <$> build_middleware_stack app) ++ [RouterDispatch].

(** [ExceptionMiddleware._lookup_exception_handler]: the first class of
    the exception's MRO that has a handler. *)
Fixpoint lookup_exception_handler
    (handlers : gmap string ExceptionHandler) (mro : list string)
    : option ExceptionHandler :=
  match mro with
  | [] => None
  | cls :: rest =>
      match handlers !! cls with
      | Some h => Some h
      | None => lookup_exception_handler handlers rest
      end
  end.

(** [build_middleware_stack] gives the handler registered for
    [Exception] to the server-error layer and all the others to the
    exception layer, where they go on top of that layer's built-in
    ones. *)
Definition exception_layer_handlers (fw : Framework) (app : FastAPI E)
    : gmap string ExceptionHandler :=
  delete Exception (exception_handlers app) ∪
  middleware_exception_handlers fw.

(** [ServerErrorMiddleware.__call__], with [debug] off: an instance of
    [Exception] is given to the handler registered for [Exception] (the
    framework's plain 500 response when there is none), the response is
    sent unless one had started, and the exception is always raised
    again. *)
Definition server_error_layer (app : FastAPI E) (e : PyExc)
    (started : bool) : Handling :=
  if isinstance e Exception then
    mk_Handling (exception_handlers app !! Exception) (negb started) (Some e)
  else mk_Handling None false (Some e).

(** [wrap_app_handling_exceptions], as the exception layer applies it: an
    instance of [Exception] whose MRO has a handler is answered by it and
    goes no further, unless a response had started, in which case a
    [RuntimeError] is raised instead; every other exception is raised
    again.  What leaves the exception layer passes the user middlewares
    and reaches the server-error layer. *)
Definition exception_layer (fw : Framework) (app : FastAPI E) (e : PyExc)
    (started : bool) : Handling :=
  if isinstance e Exception then
    match lookup_exception_handler (exception_layer_handlers fw app)
            (exc_mro e) with
    | None => server_error_layer app e started
    | Some h =>
        if started then server_error_layer app response_already_started true
        else mk_Handling (Some h) true None
    end
  else server_error_layer app e started.

(** What becomes of an exception [e], raised at [origin] when a response
    had or had not started. *)
Definition handle_exception (fw : Framework) (app : FastAPI E)
    (origin : Origin) (e : PyExc) (started : bool) : Handling :=
  match origin with
  | UnderRouter => exception_layer fw app e started
  | InMiddleware => server_error_layer app e started
  end.
End methods.

End starlette.

(** ** main.py *)

Module main.
Import python starlette.

(** The exception classes main.py imports. *)
Definition StarletteHTTPException : string :=
  "starlette.exceptions.HTTPException".
Definition RequestValidationError : string :=
  "fastapi.exceptions.RequestValidationError".
Definition ErroValidacaoFormulario : string :=
  "util.exceptions.ErroValidacaoFormulario".

(** The repository modules main.py imports from [repo]. *)
Inductive Repo : Set :=
| categoria_repo
| artigo_repo
| usuario_repo
| configuracao_repo
| chamado_repo
| chamado_interacao_repo
| indices_repo
| chat_sala_repo
| chat_participante_repo
| chat_mensagem_repo.

#[global] Instance Repo_eq_dec : EqDecision Repo.
Proof. solve_decision. Defined.

(** The calls into the database layer: [r.criar_tabela()],
    [r.criar_indices()] and [inicializar_dados()]. *)
Inductive DbCall : Set :=
| CriarTabela (r : Repo)
| CriarIndices (r : Repo)
| InicializarDados.

#[global] Instance DbCall_eq_dec : EqDecision DbCall.
Proof. solve_decision. Defined.

Inductive LogLevel : Set := INFO | WARNING | ERROR.

(** What the bootstrap does to the outside, in the order it does it. *)
Inductive Event : Set :=
| Log (level : LogLevel) (msg : string) (exc_info : bool)
| AddMiddleware (m : Middleware)
| AddExceptionHandler (cls : string) (h : ExceptionHandler)
| MountStatic (path directory name : string)
| Call (c : DbCall)
| IncludeRouter (r : Router)
| AddApiRoute (path : string) (methods : list string).

(** The world is the sequence of events so far, oldest first. *)
Abbreviation World := (list Event).

(** A statement: runs in a world, returns or raises, leaves a world. *)
Definition M (A : Type) : Type := World → Result A * World.

#[global] Instance M_ret : MRet M := λ A a w, (Return a, w).
#[global] Instance M_bind : MBind M := λ A B f m w,
  match m w with
  | (Return a, w') => f a w'
  | (Raise e, w') => (Raise e, w')
  end.

Definition raise {A : Type} (e : PyExc) : M A := λ w, (Raise e, w).

Definition emit (ev : Event) : M unit := λ w, (Return (), (w ++ [ev])%list).

(** [try: body  except cls as e: handler e] *)
Definition try_except {A : Type} (body : M A) (cls : string)
    (handler : PyExc → M A) : M A := λ w,
  match body w with
  | (Return a, w') => (Return a, w')
  | (Raise e, w') =>
      if isinstance e cls then handler e w' else (Raise e, w')
  end.

(** [for x in xs: app = body app x] *)
Fixpoint for_each {A B : Type} (xs : list A) (acc : B)
    (body : B → A → M B) : M B :=
  match xs with
  | [] => mret acc
  | x :: rest => acc' ← body acc x; for_each rest acc' body
  end.

(** The endpoints are statements that return a JSON object. *)
Definition Endpoint : Type := M (gmap string string).
Definition App : Type := FastAPI Endpoint.

Definition logger_info (msg : string) : M unit := emit (Log INFO msg false).
Definition logger_warning (msg : string) : M unit :=
  emit (Log WARNING msg false).
Definition logger_error (msg : string) (exc_info : bool) : M unit :=
  emit (Log ERROR msg exc_info).

(** The methods of [app], each recorded in the world. *)
Definition app_add_middleware (app : App) (cls : MiddlewareClass)
    (kwargs : list (string * string)) : M App :=
  emit (AddMiddleware (mk_Middleware cls kwargs));;
  mret (add_middleware app cls kwargs).

Definition app_add_exception_handler (app : App) (cls : string)
    (h : ExceptionHandler) : M App :=
  emit (AddExceptionHandler cls h);;
  mret (add_exception_handler app cls h).

Definition app_mount (app : App) (path directory name : string) : M App :=
  emit (MountStatic path directory name);;
  mret (mount app path directory name).

Definition app_include_router (app : App) (r : Router) : M App :=
  emit (IncludeRouter r);;
  mret (include_router app r).

Definition app_get (app : App) (path : string) (endpoint : Endpoint)
    : M App :=
  emit (AddApiRoute path ["GET"]);;
  mret (get app path endpoint).

(** [async def health_check(): return {"status": "healthy"}] *)
Definition health_check : Endpoint :=
  mret {[ "status" := "healthy" ]}.

(** What [create_app] finds around it: whether [Path("static").exists()],
    the path then being a directory (for anything else [StaticFiles]
    raises), and for each database call the exception it raises, if any. *)
Record Env : Set := mk_Env {
  static_exists : bool;
  db_raises : DbCall → option PyExc
}.

Section create_app.
(** [util.config] *)
Context (APP_NAME SECRET_KEY VERSION : string).
(** [r.prefix], or [None] when [r] has no such attribute *)
Context (prefix : Router → option string).
Context (fw : Framework).
Context (env : Env).

Definition db_call (c : DbCall) : M unit :=
  emit (Call c);;
  match db_raises env c with
  | Some e => raise e
  | None => mret ()
  end.

Definition criar_tabela (r : Repo) : M unit := db_call (CriarTabela r).
Definition criar_indices (r : Repo) : M unit := db_call (CriarIndices r).
Definition inicializar_dados : M unit := db_call InicializarDados.

Definition routers : list Router := [
  auth_router;
  chamados_router;
  admin_usuarios_router;
  admin_config_router;
  admin_backups_router;
  admin_chamados_router;
  usuario_router;
  chat_router;
  public_router;
  examples_router;
  admin_categorias_router;
  artigos_router
].

Definition create_app : M App :=
  app ← mret (new fw APP_NAME VERSION);
  (* Middlewares *)
  app ← app_add_middleware app SessionMiddleware
          [("secret_key", SECRET_KEY)];
  app ← app_add_middleware app MiddlewareProtecaoCSRF [];
  logger_info " Middlewares registrados com sucesso";;
  (* Handlers de excecao *)
  app ← app_add_exception_handler app StarletteHTTPException
          http_exception_handler;
  app ← app_add_exception_handler app RequestValidationError
          validation_exception_handler;
  app ← app_add_exception_handler app ErroValidacaoFormulario
          form_validation_exception_handler;
  app ← app_add_exception_handler app Exception
          generic_exception_handler;
  logger_info " Exception handlers configurados";;
  (* Arquivos estaticos *)
  app ← (if static_exists env then
           app ← app_mount app "/static" "static" "static";
           logger_info " Arquivos estáticos montados em /static";;
           mret app
         else
           logger_warning
             " Diretório 'static' não encontrado – rotas estáticas não foram montadas";;
           mret app);
  (* Banco de dados e seeds *)
  try_except
    (logger_info " Criando/verificando tabelas do banco de dados...";;
     criar_tabela usuario_repo;;
     criar_tabela configuracao_repo;;
     criar_tabela chamado_repo;;
     criar_tabela chamado_interacao_repo;;
     criar_tabela chat_sala_repo;;
     criar_tabela chat_participante_repo;;
     criar_tabela chat_mensagem_repo;;
     criar_indices indices_repo;;
     criar_tabela categoria_repo;;
     criar_tabela artigo_repo;;
     logger_info " Tabelas e índices criados/verificados com sucesso";;
     inicializar_dados;;
     logger_info " Dados iniciais carregados com sucesso")
    Exception
    (λ e,
       logger_error (" Erro ao preparar banco de dados: " +:+ exc_str e)
                    true;;
       raise e);;
  (* Registro das rotas *)
  app ← for_each routers app (λ app r,
          app ← app_include_router app r;
          logger_info (" Router incluído: " +:+
                       match prefix r with
                       | Some p => p
                       | None => "sem prefixo"
                       end);;
          mret app);
  (* Health Check *)
  app ← app_get app "/health" health_check;
  logger_info (" " +:+ APP_NAME +:+ " inicializado com sucesso (v" +:+
               VERSION +:+ ")");;
  mret app.

(** [app = create_app()] at import time: the run from the empty world. *)
Definition run_create_app : Result App * World := create_app [].
End create_app.

End main.

(** ** The shape of a bootstrap run

    The pieces from which the runs of [create_app] are described: the
    application and the events after the configuration part, the statements
    of the [try] block, and the events of the registration part. *)

Module bootstrap.
Import python starlette main.

(** A statement of the [try] block. *)
Inductive Step : Set :=
| SInfo (msg : string)
| SCall (c : DbCall).

Definition step_event (s : Step) : Event :=
  match s with
  | SInfo msg => Log INFO msg false
  | SCall c => Call c
  end.

(** The [try] block, statement by statement. *)
Definition db_steps : list Step := [
  SInfo " Criando/verificando tabelas do banco de dados...";
  SCall (CriarTabela usuario_repo);
  SCall (CriarTabela configuracao_repo);
  SCall (CriarTabela chamado_repo);
  SCall (CriarTabela chamado_interacao_repo);
  SCall (CriarTabela chat_sala_repo);
  SCall (CriarTabela chat_participante_repo);
  SCall (CriarTabela chat_mensagem_repo);
  SCall (CriarIndices indices_repo);
  SCall (CriarTabela categoria_repo);
  SCall (CriarTabela artigo_repo);
  SInfo " Tabelas e índices criados/verificados com sucesso";
  SCall InicializarDados;
  SInfo " Dados iniciais carregados com sucesso"
].

(** The database preparation: users, configuration, tickets, ticket
    interactions, chat room, chat participant, chat message, indices,
    categories, articles, and the seed data. *)
Definition db_calls : list DbCall := [
  CriarTabela usuario_repo;
  CriarTabela configuracao_repo;
  CriarTabela chamado_repo;
  CriarTabela chamado_interacao_repo;
  CriarTabela chat_sala_repo;
  CriarTabela chat_participante_repo;
  CriarTabela chat_mensagem_repo;
  CriarIndices indices_repo;
  CriarTabela categoria_repo;
  CriarTabela artigo_repo;
  InicializarDados
].

Definition step_call (s : Step) : option DbCall :=
  match s with
  | SInfo _ => None
  | SCall c => Some c
  end.

Definition is_include_router (ev : Event) : option Router :=
  match ev with
  | IncludeRouter r => Some r
  | _ => None
  end.

Definition included_router {E : Type} (r : BaseRoute E) : option Router :=
  match r with
  | IncludedRouter r => Some r
  | _ => None
  end.

Definition is_mount {E : Type} (r : BaseRoute E) : bool :=
  match r with
  | Mount _ _ _ => true
  | _ => false
  end.

Definition is_mount_event (ev : Event) : bool :=
  match ev with
  | MountStatic _ _ _ => true
  | _ => false
  end.

(** [x] occurs in [l] at an earlier position than [y]. *)
Definition before {A : Type} (l : list A) (x y : A) : Prop :=
  ∃ i j : nat, (i < j)%nat ∧ l !! i = Some x ∧ l !! j = Some y.

Section run.
Context (APP_NAME SECRET_KEY VERSION : string).
Context (prefix : Router → option string).
Context (fw : Framework).
Context (env : Env).

Definition run_step (s : Step) : M unit :=
  match s with
  | SInfo msg => logger_info msg
  | SCall c => db_call env c
  end.

Fixpoint run_steps (l : list Step) : M unit :=
  match l with
  | [] => mret ()
  | s :: rest => run_step s;; run_steps rest
  end.

(** The [except Exception as e] clause. *)
Definition on_error (e : PyExc) : M unit :=
  logger_error (" Erro ao preparar banco de dados: " +:+ exc_str e) true;;
  raise e.

Definition error_events (e : PyExc) : list Event :=
  if isinstance e Exception
  then [Log ERROR (" Erro ao preparar banco de dados: " +:+ exc_str e) true]
  else [].

(** The statements of [create_app] before the [try] block. *)
Definition configure : M App :=
  app ← mret (new fw APP_NAME VERSION);
  app ← app_add_middleware app SessionMiddleware
          [("secret_key", SECRET_KEY)];
  app ← app_add_middleware app MiddlewareProtecaoCSRF [];
  logger_info " Middlewares registrados com sucesso";;
  app ← app_add_exception_handler app StarletteHTTPException
          http_exception_handler;
  app ← app_add_exception_handler app RequestValidationError
          validation_exception_handler;
  app ← app_add_exception_handler app ErroValidacaoFormulario
          form_validation_exception_handler;
  app ← app_add_exception_handler app Exception
          generic_exception_handler;
  logger_info " Exception handlers configurados";;
  if static_exists env then
    app ← app_mount app "/static" "static" "static";
    logger_info " Arquivos estáticos montados em /static";;
    mret app
  else
    logger_warning
      " Diretório 'static' não encontrado – rotas estáticas não foram montadas";;
    mret app.

(** The body of the loop over [routers]. *)
Definition include_and_log (app : App) (r : Router) : M App :=
  app ← app_include_router app r;
  logger_info (" Router incluído: " +:+
               match prefix r with
               | Some p => p
               | None => "sem prefixo"
               end);;
  mret app.

(** The statements of [create_app] after the [try] block. *)
Definition register (app : App) : M App :=
  app ← for_each routers app include_and_log;
  app ← app_get app "/health" health_check;
  logger_info (" " +:+ APP_NAME +:+ " inicializado com sucesso (v" +:+
               VERSION +:+ ")");;
  mret app.

(** The application when the [try] block is entered. *)
Definition configured_app : App :=
  let app := new fw APP_NAME VERSION in
  let app := add_middleware app SessionMiddleware
               [("secret_key", SECRET_KEY)] in
  let app := add_middleware app MiddlewareProtecaoCSRF [] in
  let app := add_exception_handler app StarletteHTTPException
               http_exception_handler in
  let app := add_exception_handler app RequestValidationError
               validation_exception_handler in
  let app := add_exception_handler app ErroValidacaoFormulario
               form_validation_exception_handler in
  let app := add_exception_handler app Exception
               generic_exception_handler in
  if static_exists env then mount app "/static" "static" "static"
  else app.

Definition static_events : list Event :=
  if static_exists env then
    [MountStatic "/static" "static" "static";
     Log INFO " Arquivos estáticos montados em /static" false]
  else
    [Log WARNING
       " Diretório 'static' não encontrado – rotas estáticas não foram montadas"
       false].

Definition configured_events : list Event :=
  [AddMiddleware (mk_Middleware SessionMiddleware
                    [("secret_key", SECRET_KEY)]);
   AddMiddleware (mk_Middleware MiddlewareProtecaoCSRF []);
   Log INFO " Middlewares registrados com sucesso" false;
   AddExceptionHandler StarletteHTTPException http_exception_handler;
   AddExceptionHandler RequestValidationError
     validation_exception_handler;
   AddExceptionHandler ErroValidacaoFormulario
     form_validation_exception_handler;
   AddExceptionHandler Exception generic_exception_handler;
   Log INFO " Exception handlers configurados" false] ++ static_events.

Definition router_events (r : Router) : list Event :=
  [IncludeRouter r;
   Log INFO (" Router incluído: " +:+
             match prefix r with
             | Some p => p
             | None => "sem prefixo"
             end) false].

Definition registration_events : list Event :=
  (routers ≫= router_events) ++
  [AddApiRoute "/health" ["GET"];
   Log INFO (" " +:+ APP_NAME +:+ " inicializado com sucesso (v" +:+
             VERSION +:+ ")") false].

(** The application [create_app] returns. *)
Definition final_app : App :=
  get (foldl include_router configured_app routers) "/health"
      health_check.
End run.

(** A closed instance, for evaluating the model: a framework with the
    defaults of FastAPI, the configuration of a development setup, and
    two exceptions. *)
Definition fastapi : Framework := {|
  fastapi_exception_handlers :=
    {[ StarletteHTTPException := framework_handler "http_exception_handler";
       RequestValidationError :=
         framework_handler "request_validation_exception_handler";
       "fastapi.exceptions.WebSocketRequestValidationError" :=
         framework_handler "websocket_request_validation_exception_handler" ]};
  fastapi_routes := ["/openapi.json"; "/docs"; "/docs/oauth2-redirect";
                     "/redoc"];
  middleware_exception_handlers :=
    {[ StarletteHTTPException := framework_handler "http_exception";
       "starlette.exceptions.WebSocketException" :=
         framework_handler "websocket_exception" ]}
|}.

Definition no_prefix (r : Router) : option string := None.

Definition healthy_env (static : bool) : Env := mk_Env static (λ _, None).

Definition OperationalError : PyExc :=
  mk_PyExc ["sqlite3.OperationalError"; "sqlite3.DatabaseError";
            "sqlite3.Error"; "Exception"; "BaseException"; "object"]
           "unable to open database file".

Definition RuntimeError : PyExc :=
  mk_PyExc ["RuntimeError"; "Exception"; "BaseException"; "object"]
           "boom".

Definition failing_env (c : DbCall) (e : PyExc) : Env :=
  mk_Env true (λ c', if decide (c' = c) then Some e else None).

Definition example_run (env : Env) : Result App * World :=
  run_create_app "SimpleBlog" "secret" "1.0.0" no_prefix fastapi env.

End bootstrap.

(** ** What a run shows *)

Module observations.
Import python starlette main.

(** The database calls of a run, in the order they were made. *)
Definition is_call (ev : Event) : option DbCall :=
  match ev with
  | Call c => Some c
  | _ => None
  end.

Definition calls_of (tr : World) : list DbCall := omap is_call tr.

(** The records logged at level ERROR. *)
Definition is_error (ev : Event) : bool :=
  match ev with
  | Log ERROR _ _ => true
  | _ => false
  end.

Definition errors_of (tr : World) : World := filter (λ ev, is_error ev) tr.

(** The events that change the configuration of the application:
    middlewares, exception handlers and mounts. *)
Definition is_configuration (ev : Event) : bool :=
  match ev with
  | AddMiddleware _ | AddExceptionHandler _ _ | MountStatic _ _ _ => true
  | _ => false
  end.

(** The four classes [create_app] registers a handler for. *)
Definition registered_classes : list string :=
  [StarletteHTTPException; RequestValidationError; ErroValidacaoFormulario;
   Exception].


End observations.

(** ** main.py as a module: [app = create_app()] and the [__main__] block *)

Module script.
Import python starlette main.

Definition KeyboardInterrupt : string := "KeyboardInterrupt".

(** The keyword arguments of a call [uvicorn.run(app, ...)]; a keyword
    the call does not pass is [None]. *)
Record UvicornCall : Set := mk_UvicornCall {
  uv_app : string;
  uv_host : string;
  uv_port : Z;
  uv_reload : option bool;
  uv_log_level : string
}.

(** What the process does: the events of [create_app] and of the loggers,
    and the calls of [uvicorn.run]. *)
Inductive ProcessEvent : Set :=
| Ev (ev : Event)
| UvicornRun (call : UvicornCall).

Abbreviation Process := (list ProcessEvent).

(** A statement of the module. *)
Definition P (A : Type) : Type := Process → Result A * Process.

#[global] Instance P_ret : MRet P := λ A a p, (Return a, p).
#[global] Instance P_bind : MBind P := λ A B f m p,
  match m p with
  | (Return a, p') => f a p'
  | (Raise e, p') => (Raise e, p')
  end.

Definition reraise {A : Type} (e : PyExc) : P A := λ p, (Raise e, p).

(** A statement of [create_app]'s kind, run as a statement of the module:
    its events are appended to the process. *)
Definition lift {A : Type} (m : M A) : P A := λ p,
  let '(r, tr) := m [] in (r, (p ++ (Ev <$> tr))%list).

(** The [except] clauses of a [try], tried in order. *)
Fixpoint handle {A : Type} (clauses : list (string * (PyExc → P A)))
    (e : PyExc) : P A :=
  match clauses with
  | [] => reraise e
  | (cls, h) :: rest => if isinstance e cls then h e else handle rest e
  end.

(** [try: body  except c1 as e: h1 e  except c2 as e: h2 e ...] *)
Definition try_excepts {A : Type} (body : P A)
    (clauses : list (string * (PyExc → P A))) : P A := λ p,
  match body p with
  | (Return a, p') => (Return a, p')
  | (Raise e, p') => handle clauses e p'
  end.

(** [s * n] *)
Fixpoint str_mul (s : string) (n : nat) : string :=
  match n with
  | O => ""
  | S n' => s +:+ str_mul s n'
  end.

Section main_module.
(** [util.config] *)
Context (APP_NAME SECRET_KEY VERSION HOST : string).
Context (PORT : Z) (RELOAD : bool).
Context (prefix : Router → option string).
Context (fw : Framework).
Context (env : Env).
(** [__name__ == "__main__"] *)
Context (is_main : bool).
(** The exception that ends [uvicorn.run], if one does. *)
Context (uvicorn_raises : option PyExc).

Definition uvicorn_run (call : UvicornCall) : P unit := λ p,
  (match uvicorn_raises with
   | Some e => Raise e
   | None => Return ()
   end, (p ++ [UvicornRun call])%list).

Definition main_module : P unit :=
  (* Cria a aplicacao (para o Uvicorn) *)
  app ← lift (create_app APP_NAME SECRET_KEY VERSION prefix fw env);
  (* Execucao direta (para `python main.py`) *)
  if is_main then
    lift (logger_info (str_mul "=" 70));;
    lift (logger_info (" Iniciando " +:+ APP_NAME +:+ " v" +:+ VERSION));;
    lift (logger_info (" Acesse: http://" +:+ HOST +:+ ":" +:+ pretty PORT));;
    lift (logger_info (" Hot reload: " +:+
                       (if RELOAD then "Ativado" else "Desativado")));;
    lift (logger_info (" Docs: http://" +:+ HOST +:+ ":" +:+ pretty PORT +:+
                       "/docs"));;
    lift (logger_info (str_mul "=" 70));;
    try_excepts
      (uvicorn_run {| uv_app := "main:app"; uv_host := HOST;
                      uv_port := PORT;
                      (* reload=RELOAD, *)
                      uv_reload := None;
                      uv_log_level := "info" |})
      [(KeyboardInterrupt,
        λ _, lift (logger_info " Servidor encerrado pelo usuário"));
       (Exception,
        λ e, lift (logger_error (" Erro ao iniciar servidor: " +:+ exc_str e)
                                true);;
             reraise e)]
  else mret ().

(** The module run in a fresh process. *)
Definition run_main_module : Result unit * Process := main_module [].

(** The [__main__] block up to the [try]: the banner. *)
Definition banner : World := [
  Log INFO (str_mul "=" 70) false;
  Log INFO (" Iniciando " +:+ APP_NAME +:+ " v" +:+ VERSION) false;
  Log INFO (" Acesse: http://" +:+ HOST +:+ ":" +:+ pretty PORT) false;
  Log INFO (" Hot reload: " +:+ (if RELOAD then "Ativado" else "Desativado"))
      false;
  Log INFO (" Docs: http://" +:+ HOST +:+ ":" +:+ pretty PORT +:+ "/docs")
      false;
  Log INFO (str_mul "=" 70) false
].

(** The one call of [uvicorn.run] in the module. *)
Definition the_call : UvicornCall :=
  {| uv_app := "main:app"; uv_host := HOST; uv_port := PORT;
     uv_reload := None; uv_log_level := "info" |}.
End main_module.

Definition is_uvicorn_run (ev : ProcessEvent) : option UvicornCall :=
  match ev with
  | UvicornRun call => Some call
  | Ev _ => None
  end.

Definition is_ev (ev : ProcessEvent) : option Event :=
  match ev with
  | Ev ev => Some ev
  | UvicornRun _ => None
  end.

(** The calls of [uvicorn.run] of a process, and its other events. *)
Definition uvicorn_calls (p : Process) : list UvicornCall :=
  omap is_uvicorn_run p.
Definition events_of (p : Process) : World := omap is_ev p.

(** How the [try] around [uvicorn.run] ends, and what it logs on the
    way, by the exception that ended [uvicorn.run]. *)
Definition outcome (uvicorn_raises : option PyExc) : Result unit :=
  match uvicorn_raises with
  | None => Return ()
  | Some e => if isinstance e KeyboardInterrupt then Return () else Raise e
  end.

Definition aftermath (uvicorn_raises : option PyExc) : World :=
  match uvicorn_raises with
  | None => []
  | Some e =>
      if isinstance e KeyboardInterrupt then
        [Log INFO " Servidor encerrado pelo usuário" false]
      else if isinstance e Exception then
        [Log ERROR (" Erro ao iniciar servidor: " +:+ exc_str e) true]
      else []
  end.

Definition KeyboardInterrupt_exc : PyExc :=
  mk_PyExc ["KeyboardInterrupt"; "BaseException"; "object"] "".

Definition OSError_exc : PyExc :=
  mk_PyExc ["OSError"; "Exception"; "BaseException"; "object"]
           "[Errno 98] Address already in use".

Definition SystemExit_exc : PyExc :=
  mk_PyExc ["SystemExit"; "BaseException"; "object"] "1".

(** A closed instance of the module, run as [python main.py]. *)
Definition example_main (env : Env) (reload : bool)
    (uvicorn_raises : option PyExc) : Result unit * Process :=
  run_main_module "SimpleBlog" "secret" "1.0.0" "127.0.0.1" 8000 reload
    bootstrap.no_prefix bootstrap.fastapi env true uvicorn_raises.

End script.

(** ** Requests and the route that serves them *)

Module routing.
Import python starlette main.

Record Request : Set := mk_Request {
  method : string;
  path : string
}.

#[global] Instance Request_eq_dec : EqDecision Request.
Proof. solve_decision. Defined.


Section dispatch.
(** Whether a route of the router fully matches the request (path and
    method); the routes of the twelve routers are in [routes/*.py]. *)
Context (router_serves : Router → Request → bool).




End dispatch.




End routing.

(** * Properties *)

(** ** The article record *)

Module artigo_facts.
Import artigo_model.

Lemma members_complete (s : StatusArtigo) : s ∈ members.
Proof. destruct s; unfold members; set_solver. Qed.

Lemma value_inj (s1 s2 : StatusArtigo) : value s1 = value s2 → s1 = s2.
Proof. destruct s1, s2; simpl; congruence. Qed.

Lemma of_value_value (s : StatusArtigo) : of_value (value s) = Some s.
Proof. by destruct s. Qed.

Lemma init_inr (args : Args) (a : Artigo) :
  init args = inr a →
  arg_id args = Some (id a) ∧ arg_titulo args = Some (titulo a) ∧
  arg_conteudo args = Some (conteudo a) ∧
  arg_status args = Some (status a) ∧
  arg_usuario_id args = Some (usuario_id a) ∧
  arg_categoria_id args = Some (categoria_id a).
Proof.
  unfold init.
  destruct (arg_id args), (arg_titulo args), (arg_conteudo args),
    (arg_status args), (arg_usuario_id args), (arg_categoria_id args);
    intros H; inversion H; subst; simpl; done.
Qed.

Lemma init_inl (args : Args) (m : list string) :
  init args = inl m → m = missing args ∧ m ≠ [].
Proof.
  unfold init, missing.
  destruct (arg_id args), (arg_titulo args), (arg_conteudo args),
    (arg_status args), (arg_usuario_id args), (arg_categoria_id args);
    intros H; inversion H; subst; simpl; done.
Qed.

(** C2, as stated, fails: the record built by
    [Artigo(1, "Titulo", "Texto", "Arquivado", 1, 1)] holds a status that
    is the value of no member of [StatusArtigo]. *)
Lemma status_outside_enumeration :
  ∃ a : Artigo,
    init (only_required 1 "Titulo" "Texto" "Arquivado" 1 1) = inr a ∧
    ∀ s : StatusArtigo, status a ≠ value s.
Proof.
  eexists. split; [reflexivity|]. intros s; destruct s; simpl; discriminate.
Qed.

(** C2, amended: [StatusArtigo] has exactly the four members Rascunho,
    Finalizado, Publicado and Pausado, with pairwise distinct values that
    map back to their members; [Artigo.status] is a plain string, which
    the constructor stores exactly as passed, so it holds each of the four
    values and any other string as well. *)
Theorem status_is_an_unchecked_string (args : Args) (a : Artigo) :
  init args = inr a →
  arg_status args = Some (status a) ∧
  value <$> members = ["Rascunho"; "Finalizado"; "Publicado"; "Pausado"] ∧
  (∀ s : StatusArtigo, s ∈ members) ∧
  NoDup (value <$> members) ∧
  (∀ s : StatusArtigo, of_value (value s) = Some s) ∧
  (∀ (v : string) (i : Z) (t c : string) (u k : Z),
     ∃ b, init (only_required i t c v u k) = inr b ∧ status b = v).
Proof.
  intros H. split; [by apply init_inr in H as (_ & _ & _ & ? & _)|].
  split; [reflexivity|]. split; [apply members_complete|].
  split; [|split; [apply of_value_value|]].
  - apply (NoDup_fmap_2_strong value).
    + intros s1 s2 _ _. apply value_inj.
    + by apply (bool_decide_unpack _).
  - intros v i t c u k. eexists. split; reflexivity.
Qed.

Lemma status_is_an_unchecked_string_witness :
  let args := only_required 7 "Titulo" "Texto" "Publicado" 3 2 in
  ∃ a, init args = inr a ∧ arg_status args = Some (status a) ∧
       of_value (status a) = Some PUBLICADO.
Proof.
  simpl. eexists. split; [reflexivity|].
  split.
  - exact (proj1 (status_is_an_unchecked_string
                    (only_required 7 "Titulo" "Texto" "Publicado" 3 2) _
                    eq_refl)).
  - reflexivity.
Defined.

(** C8: the six fields without a default are id, titulo, conteudo, status,
    usuario_id and categoria_id, and the constructor fails exactly when
    one of them is left out; resumo is optional, qtde_visualizacoes is the
    view counter, and the fields of type [Optional[datetime]] are exactly
    data_cadastro, data_atualizacao, data_publicacao and data_pausa, each
    of which a record can hold as [None] or as a date. *)
Theorem artigo_fields :
  field_name <$> filter (λ f, field_default f = MISSING) fields =
    ["id"; "titulo"; "conteudo"; "status"; "usuario_id"; "categoria_id"] ∧
  (∀ args : Args,
     match init args with
     | inr a =>
         missing args = [] ∧
         arg_id args = Some (id a) ∧ arg_titulo args = Some (titulo a) ∧
         arg_conteudo args = Some (conteudo a) ∧
         arg_status args = Some (status a) ∧
         arg_usuario_id args = Some (usuario_id a) ∧
         arg_categoria_id args = Some (categoria_id a)
     | inl m => m = missing args ∧ m ≠ []
     end) ∧
  mk_Field "resumo" (TOptional Tstr) DefaultNone ∈ fields ∧
  mk_Field "qtde_visualizacoes" (TOptional Tint) (DefaultInt 0) ∈ fields ∧
  filter (λ f, field_type f = TOptional Tdatetime) fields =
    [mk_Field "data_cadastro" (TOptional Tdatetime) DefaultNone;
     mk_Field "data_atualizacao" (TOptional Tdatetime) DefaultNone;
     mk_Field "data_publicacao" (TOptional Tdatetime) DefaultNone;
     mk_Field "data_pausa" (TOptional Tdatetime) DefaultNone] ∧
  (∀ (i : Z) (t c s : string) (u k : Z)
     (d1 d2 d3 d4 : option datetime),
     ∃ a,
       init {| arg_id := Some i; arg_titulo := Some t;
               arg_conteudo := Some c; arg_status := Some s;
               arg_usuario_id := Some u; arg_categoria_id := Some k;
               arg_resumo := None; arg_qtde_visualizacoes := None;
               arg_data_cadastro := Some d1;
               arg_data_atualizacao := Some d2;
               arg_data_publicacao := Some d3;
               arg_data_pausa := Some d4;
               arg_usuario_nome := None; arg_usuario_email := None;
               arg_categoria_nome := None |} = inr a ∧
       data_cadastro a = d1 ∧ data_atualizacao a = d2 ∧
       data_publicacao a = d3 ∧ data_pausa a = d4).
Proof.
  split; [reflexivity|]. split.
  - intros args. destruct (init args) as [m|a] eqn:H.
    + by apply init_inl.
    + split; [|by apply init_inr].
      unfold init, missing in *.
      destruct (arg_id args), (arg_titulo args), (arg_conteudo args),
        (arg_status args), (arg_usuario_id args), (arg_categoria_id args);
        done.
  - split; [unfold fields; set_solver|].
    split; [unfold fields; set_solver|].
    split; [reflexivity|].
    intros. eexists. split; [reflexivity|]. done.
Qed.

(** C10: [Artigo(id, titulo, conteudo, status, usuario_id, categoria_id)]
    yields the record with these six values, a view counter of 0, and
    [None] for the summary, the four timestamps and the three JOIN
    fields. *)
Theorem artigo_defaults (i : Z) (t c s : string) (u k : Z) :
  init (only_required i t c s u k) =
    inr {| id := i; titulo := t; conteudo := c; status := s;
           usuario_id := u; categoria_id := k;
           resumo := None;
           qtde_visualizacoes := Some 0;
           data_cadastro := None; data_atualizacao := None;
           data_publicacao := None; data_pausa := None;
           usuario_nome := None; usuario_email := None;
           categoria_nome := None |}.
Proof. reflexivity. Qed.

End artigo_facts.

(** ** The bootstrap *)

Module bootstrap_facts.
Import python starlette main bootstrap.
Local Open Scope list_scope.

(** *** Running statements *)

Lemma run_emit (ev : Event) (w : World) :
  emit ev w = (Return (), w ++ [ev]).
Proof. reflexivity. Qed.

Lemma run_bind_return {A B : Type} (m : M A) (f : A → M B) (w w' : World)
    (a : A) :
  m w = (Return a, w') → (m ≫= f) w = f a w'.
Proof. intros H. unfold mbind, M_bind. by rewrite H. Qed.

Lemma run_bind_raise {A B : Type} (m : M A) (f : A → M B) (w w' : World)
    (e : PyExc) :
  m w = (Raise e, w') → (m ≫= f) w = (Raise e, w').
Proof. intros H. unfold mbind, M_bind. by rewrite H. Qed.

(** Runs the statements that neither branch nor raise. *)
Ltac run_statements :=
  cbv [mbind M_bind mret M_ret emit logger_info logger_warning logger_error
       app_add_middleware app_add_exception_handler app_mount
       app_include_router app_get].

Section runs.
Context (APP_NAME SECRET_KEY VERSION : string).
Context (prefix : Router → option string).
Context (fw : Framework).
Context (env : Env).

Lemma run_db_call_ok (c : DbCall) (w : World) :
  db_raises env c = None → db_call env c w = (Return (), w ++ [Call c]).
Proof.
  intros H. unfold db_call.
  rewrite (run_bind_return _ _ _ _ _ (run_emit _ _)). by rewrite H.
Qed.

Lemma run_db_call_raise (c : DbCall) (e : PyExc) (w : World) :
  db_raises env c = Some e → db_call env c w = (Raise e, w ++ [Call c]).
Proof.
  intros H. unfold db_call.
  rewrite (run_bind_return _ _ _ _ _ (run_emit _ _)). by rewrite H.
Qed.

(** Every call of the block returning, the block returns after all its
    statements. *)
Lemma run_steps_ok (l : list Step) (w : World) :
  (∀ c, SCall c ∈ l → db_raises env c = None) →
  run_steps env l w = (Return (), w ++ (step_event <$> l)).
Proof.
  revert w. induction l as [|s l IH]; intros w H.
  - simpl. by rewrite app_nil_r.
  - simpl run_steps. rewrite fmap_cons, cons_middle, app_assoc.
    rewrite (run_bind_return _ _ w (w ++ [step_event s]) ()).
    + apply IH. intros c Hc. apply H. set_solver.
    + destruct s as [msg|c]; simpl; [reflexivity|].
      apply run_db_call_ok, H. set_solver.
Qed.

(** The first call that raises ends the block, after the statements
    before it. *)
Lemma run_steps_raise (pre post : list Step) (c : DbCall) (e : PyExc)
    (w : World) :
  (∀ c', SCall c' ∈ pre → db_raises env c' = None) →
  db_raises env c = Some e →
  run_steps env (pre ++ SCall c :: post) w =
    (Raise e, w ++ (step_event <$> pre) ++ [Call c]).
Proof.
  revert w. induction pre as [|s pre IH]; intros w H He.
  - simpl. apply run_bind_raise. by apply run_db_call_raise.
  - simpl.
    rewrite (run_bind_return _ _ w (w ++ [step_event s]) ()).
    + rewrite IH by (first [done | intros c' Hc; apply H; set_solver]).
      by rewrite <- app_assoc.
    + destruct s as [msg|c0]; simpl; [reflexivity|].
      apply run_db_call_ok, H. set_solver.
Qed.

(** Either every call of a block returns, or there is a first one that
    raises. *)
Lemma steps_cases (l : list Step) :
  (∀ c, SCall c ∈ l → db_raises env c = None) ∨
  ∃ pre c post e,
    l = pre ++ SCall c :: post ∧
    (∀ c', SCall c' ∈ pre → db_raises env c' = None) ∧
    db_raises env c = Some e.
Proof.
  induction l as [|s l [IH|(pre & c & post & e & -> & Hpre & He)]].
  - left. intros c Hc. by apply elem_of_nil in Hc.
  - destruct s as [msg|c].
    + left. intros c Hc. apply IH.
      by apply elem_of_cons in Hc as [[=]|Hc].
    + destruct (db_raises env c) as [e|] eqn:Hc.
      * right. exists [], c, l, e. split; [done|]. split; [|done].
        intros c' Hc'. by apply elem_of_nil in Hc'.
      * left. intros c' Hc'.
        apply elem_of_cons in Hc' as [[= ->]|Hc']; auto.
  - destruct s as [msg|c0].
    + right. exists (SInfo msg :: pre), c, post, e. split; [done|].
      split; [|done]. intros c' Hc'. apply Hpre.
      by apply elem_of_cons in Hc' as [[=]|Hc'].
    + destruct (db_raises env c0) as [e0|] eqn:Hc0.
      * right. exists [], c0, (pre ++ SCall c :: post), e0.
        split; [done|]. split; [|done].
        intros c' Hc'. by apply elem_of_nil in Hc'.
      * right. exists (SCall c0 :: pre), c, post, e. split; [done|].
        split; [|done]. intros c' Hc'.
        apply elem_of_cons in Hc' as [[= ->]|Hc']; auto.
Qed.

(** *** The three parts of [create_app] *)

Lemma create_app_parts (w : World) :
  create_app APP_NAME SECRET_KEY VERSION prefix fw env w =
    (app ← configure APP_NAME SECRET_KEY VERSION fw env;
     try_except (run_steps env db_steps) Exception on_error;;
     register APP_NAME VERSION prefix app) w.
Proof.
  unfold create_app, configure. by destruct (static_exists env).
Qed.

Lemma run_configure (w : World) :
  configure APP_NAME SECRET_KEY VERSION fw env w =
    (Return (configured_app APP_NAME SECRET_KEY VERSION fw env),
     w ++ configured_events SECRET_KEY env).
Proof.
  unfold configure, configured_app, configured_events, static_events.
  destruct (static_exists env); run_statements;
    by rewrite <- !app_assoc.
Qed.

Lemma run_for_each_routers (l : list Router) (app : App) (w : World) :
  for_each l app (include_and_log prefix) w =
    (Return (foldl include_router app l),
     w ++ (l ≫= router_events prefix)).
Proof.
  revert app w. induction l as [|r l IH]; intros app w.
  - simpl. by rewrite app_nil_r.
  - rewrite bind_cons. simpl for_each.
    rewrite (run_bind_return _ _ w (w ++ router_events prefix r)
               (include_router app r)).
    + rewrite IH. by rewrite <- app_assoc.
    + unfold include_and_log, router_events. run_statements.
      by rewrite <- !app_assoc.
Qed.

Lemma run_register (app : App) (w : World) :
  register APP_NAME VERSION prefix app w =
    (Return (get (foldl include_router app routers) "/health"
                 health_check),
     w ++ registration_events APP_NAME VERSION prefix).
Proof.
  unfold register, registration_events.
  rewrite (run_bind_return _ _ _ _ _ (run_for_each_routers _ _ _)).
  run_statements. by rewrite <- !app_assoc.
Qed.

Lemma run_try_return {A : Type} (body : M A) (cls : string)
    (h : PyExc → M A) (w w' : World) (a : A) :
  body w = (Return a, w') → try_except body cls h w = (Return a, w').
Proof. intros H. unfold try_except. by rewrite H. Qed.

Lemma run_try_raise {A : Type} (body : M A) (cls : string)
    (h : PyExc → M A) (w w' : World) (e : PyExc) :
  body w = (Raise e, w') →
  try_except body cls h w =
    if isinstance e cls then h e w' else (Raise e, w').
Proof. intros H. unfold try_except. by rewrite H. Qed.

Lemma run_on_error (e : PyExc) (w : World) :
  (if isinstance e Exception then on_error e w else (Raise e, w)) =
    (Raise e, w ++ error_events e).
Proof.
  unfold error_events, on_error.
  destruct (isinstance e Exception); [done|]. by rewrite app_nil_r.
Qed.

Lemma db_steps_calls (c : DbCall) : SCall c ∈ db_steps ↔ c ∈ db_calls.
Proof.
  change db_calls with (omap step_call db_steps).
  rewrite list_elem_of_omap. split.
  - intros H. by exists (SCall c).
  - intros ([msg|c'] & H & [= ->]). done.
Qed.

Local Abbreviation run :=
  (run_create_app APP_NAME SECRET_KEY VERSION prefix fw env).
Local Abbreviation configured := (configured_events SECRET_KEY env).
Local Abbreviation registration :=
  (registration_events APP_NAME VERSION prefix).

(** *** The runs of [create_app] *)

(** Every database call returning, [create_app] returns the application
    with the routers and the health route on top of the configured one. *)
Lemma run_returns :
  (∀ c, c ∈ db_calls → db_raises env c = None) →
  run = (Return (final_app APP_NAME SECRET_KEY VERSION fw env),
         configured ++ (step_event <$> db_steps) ++ registration).
Proof.
  intros H. unfold run_create_app. rewrite create_app_parts.
  rewrite (run_bind_return _ _ _ _ _ (run_configure [])).
  rewrite (run_bind_return _ _ _ (configured ++ (step_event <$> db_steps))
             ()).
  - rewrite run_register. by rewrite <- app_assoc.
  - apply run_try_return, run_steps_ok.
    intros c Hc. by apply H, db_steps_calls.
Qed.

(** The first database call that raises ends [create_app]. *)
Lemma run_raises (pre post : list Step) (c : DbCall) (e : PyExc) :
  db_steps = pre ++ SCall c :: post →
  (∀ c', SCall c' ∈ pre → db_raises env c' = None) →
  db_raises env c = Some e →
  run = (Raise e,
         configured ++ (step_event <$> pre) ++ [Call c] ++ error_events e).
Proof.
  intros Hsteps Hpre He. unfold run_create_app. rewrite create_app_parts.
  rewrite (run_bind_return _ _ _ _ _ (run_configure [])).
  apply run_bind_raise.
  rewrite (run_try_raise _ _ _ _ _ _
             (eq_trans (f_equal (λ l, run_steps env l _) Hsteps)
                       (run_steps_raise pre post c e _ Hpre He))).
  rewrite run_on_error. by rewrite <- !app_assoc.
Qed.

Lemma run_cases :
  ((∀ c, c ∈ db_calls → db_raises env c = None) ∧
   run = (Return (final_app APP_NAME SECRET_KEY VERSION fw env),
          configured ++ (step_event <$> db_steps) ++ registration)) ∨
  ∃ pre c post e,
    db_steps = pre ++ SCall c :: post ∧
    (∀ c', SCall c' ∈ pre → db_raises env c' = None) ∧
    db_raises env c = Some e ∧
    run = (Raise e,
           configured ++ (step_event <$> pre) ++ [Call c] ++
           error_events e).
Proof.
  destruct (steps_cases db_steps) as [H|(pre & c & post & e & H1 & H2 & H3)].
  - left. assert (∀ c, c ∈ db_calls → db_raises env c = None) as H'
      by (intros c Hc; by apply H, db_steps_calls).
    split; [done|]. by apply run_returns.
  - right. exists pre, c, post, e. repeat split; try done.
    by apply run_raises with post.
Qed.

(** *** Where routers are registered *)

Lemma configured_no_router : omap is_include_router configured = [].
Proof.
  unfold configured_events, static_events.
  by destruct (static_exists env).
Qed.

Lemma steps_no_router (l : list Step) :
  omap is_include_router (step_event <$> l) = [].
Proof. induction l as [|[msg|c] l IH]; simpl; done. Qed.

Lemma error_no_router (e : PyExc) :
  omap is_include_router (error_events e) = [].
Proof. unfold error_events. by destruct (isinstance e Exception). Qed.

Lemma registration_routers :
  omap is_include_router registration = routers.
Proof. reflexivity. Qed.

Lemma no_router_lookup (tr : World) (i : nat) (r : Router) :
  omap is_include_router tr = [] → tr !! i = Some (IncludeRouter r) →
  False.
Proof.
  intros H Hi. apply list_elem_of_lookup_2 in Hi.
  assert (r ∈ omap is_include_router tr) as Hr
    by (apply list_elem_of_omap; eauto).
  rewrite H in Hr. by apply elem_of_nil in Hr.
Qed.

Lemma raised_run_no_router (pre : list Step) (c : DbCall) (e : PyExc) :
  omap is_include_router
    (configured ++ (step_event <$> pre) ++ [Call c] ++ error_events e) =
    [].
Proof.
  rewrite !omap_app, configured_no_router, steps_no_router,
    error_no_router. done.
Qed.

(** The routes of the returned application: the framework's own, the
    static mount when the directory exists, the twelve routers, the
    health route. *)
Lemma final_app_routes :
  routes (final_app APP_NAME SECRET_KEY VERSION fw env) =
    (FrameworkRoute <$> fastapi_routes fw) ++
    (if static_exists env then [Mount "/static" "static" "static"]
     else []) ++
    (IncludedRouter <$> routers) ++
    [APIRoute "/health" ["GET"] health_check].
Proof.
  unfold final_app, configured_app.
  destruct (static_exists env); cbn; by rewrite <- ?app_assoc.
Qed.

Lemma framework_routes_no_router (l : list string) :
  omap included_router (FrameworkRoute (E:=Endpoint) <$> l) = [].
Proof. induction l; simpl; done. Qed.

Lemma framework_routes_no_mount (l : list string) :
  filter (λ r, is_mount r) (FrameworkRoute (E:=Endpoint) <$> l) = [].
Proof. induction l; simpl; done. Qed.

(** C1: wherever the run of [create_app] registers a router, each of
    the ten creation calls (users, configuration, tickets, ticket
    interactions, chat room, chat participant, chat message, indices,
    categories, articles) and the seed-data initialization has been
    made earlier in the run and has returned without raising. *)
Theorem database_prepared_before_routers (i : nat) (r : Router) :
  run.2 !! i = Some (IncludeRouter r) →
  ∀ c, c ∈ db_calls →
    db_raises env c = None ∧
    ∃ j, (j < i)%nat ∧ run.2 !! j = Some (Call c).
Proof.
  intros Hi c Hc.
  destruct run_cases
    as [[Hok Hrun]|(pre & c' & post & e & _ & _ & _ & Hrun)];
    rewrite Hrun in *; cbn [snd] in Hi |- *.
  - split; [by apply Hok|].
    rewrite app_assoc in Hi |- *.
    assert (Call c ∈ configured ++ (step_event <$> db_steps)) as Hin.
    { apply elem_of_app. right.
      apply (list_elem_of_fmap_2 step_event _ (SCall c)).
      by apply db_steps_calls. }
    apply list_elem_of_lookup_1 in Hin as [j Hj].
    pose proof (lookup_lt_Some _ _ _ Hj) as Hlt.
    exists j. split; [|by rewrite lookup_app_l].
    destruct (decide (i < length (configured ++ (step_event <$> db_steps)))%nat)
      as [Hlt'|Hge]; [|lia].
    rewrite lookup_app_l in Hi by done.
    exfalso. refine (no_router_lookup _ _ _ _ Hi).
    by rewrite omap_app, configured_no_router, steps_no_router.
  - exfalso. by apply (no_router_lookup _ _ _ (raised_run_no_router _ _ _) Hi).
Qed.

(** C5: a run that returns the application has called [include_router]
    exactly once for each of the twelve routers (auth, chamados, admin
    usuarios, admin config, admin backups, admin chamados, usuario,
    chat, public, examples, admin categorias, artigos), in this order,
    and the returned application carries exactly these twelve. *)
Theorem one_router_per_feature_area (app : App) (tr : World) :
  run = (Return app, tr) →
  omap is_include_router tr =
    [auth_router; chamados_router; admin_usuarios_router;
     admin_config_router; admin_backups_router; admin_chamados_router;
     usuario_router; chat_router; public_router; examples_router;
     admin_categorias_router; artigos_router] ∧
  omap included_router (routes app) = omap is_include_router tr ∧
  NoDup (omap is_include_router tr) ∧
  (∀ r : Router, r ∈ omap is_include_router tr) ∧
  length (omap included_router (routes app)) = 12%nat.
Proof.
  intros Hrun'.
  destruct run_cases
    as [[Hok Hrun]|(pre & c' & post & e & _ & _ & _ & Hrun)];
    rewrite Hrun in Hrun'; [|done].
  assert (app = final_app APP_NAME SECRET_KEY VERSION fw env ∧
          tr = configured ++ (step_event <$> db_steps) ++ registration)
    as [-> ->] by (split; congruence).
  assert (omap is_include_router
            (configured ++ (step_event <$> db_steps) ++ registration) =
          routers) as ->.
  { by rewrite !omap_app, configured_no_router, steps_no_router. }
  assert (omap included_router
            (routes (final_app APP_NAME SECRET_KEY VERSION fw env)) =
          routers) as ->.
  { rewrite final_app_routes, !omap_app, framework_routes_no_router.
    by destruct (static_exists env). }
  split; [done|]. split; [done|].
  split; [by apply (bool_decide_unpack _)|].
  split; [|done]. intros r. by destruct r; apply (bool_decide_unpack _).
Qed.

(** C7: when one of the database calls of the bootstrap raises, the run
    of [create_app] ends by raising the exception of the first call
    that raised, so no application is returned; no router was
    registered; and, that exception being an instance of [Exception],
    the last thing the run did was to log it as an error with its
    traceback. *)
Theorem failed_preparation_stops_bootstrap (c : DbCall) (e : PyExc) :
  c ∈ db_calls → db_raises env c = Some e →
  ∃ c' e' tr,
    c' ∈ db_calls ∧ db_raises env c' = Some e' ∧
    run = (Raise e', tr) ∧
    omap is_include_router tr = [] ∧
    (isinstance e' Exception →
     last tr = Some (Log ERROR (" Erro ao preparar banco de dados: " +:+
                                exc_str e') true)).
Proof.
  intros Hc He.
  destruct run_cases
    as [[Hok Hrun]|(pre & c' & post & e' & Hsteps & _ & He' & Hrun)].
  - rewrite Hok in He; done.
  - eexists c', e', _. split; [|split; [done|split; [done|split]]].
    + apply db_steps_calls. rewrite Hsteps.
      apply elem_of_app. right. apply elem_of_cons. by left.
    + apply raised_run_no_router.
    + intros Hinst. unfold error_events.
      destruct (isinstance e' Exception); [|done].
      by rewrite !app_assoc, last_snoc.
Qed.

(** *** The returned application *)

Lemma returned_run (app : App) (tr : World) :
  run = (Return app, tr) →
  app = final_app APP_NAME SECRET_KEY VERSION fw env ∧
  tr = configured ++ (step_event <$> db_steps) ++ registration.
Proof.
  intros Hrun'.
  destruct run_cases
    as [[Hok Hrun]|(pre & c' & post & e & _ & _ & _ & Hrun)];
    rewrite Hrun in Hrun'; [|done].
  split; congruence.
Qed.

Lemma final_app_middleware :
  user_middleware (final_app APP_NAME SECRET_KEY VERSION fw env) =
    [mk_Middleware MiddlewareProtecaoCSRF [];
     mk_Middleware SessionMiddleware [("secret_key", SECRET_KEY)]].
Proof.
  unfold final_app, configured_app. by destruct (static_exists env).
Qed.

Lemma final_app_handlers :
  exception_handlers (final_app APP_NAME SECRET_KEY VERSION fw env) =
    <[Exception := generic_exception_handler]>
      (<[ErroValidacaoFormulario := form_validation_exception_handler]>
         (<[RequestValidationError := validation_exception_handler]>
            (<[StarletteHTTPException := http_exception_handler]>
               (fastapi_exception_handlers fw)))).
Proof.
  unfold final_app, configured_app. by destruct (static_exists env).
Qed.

(** C6, amended: a run that returns the application has mounted the
    "static" directory at /static, as the only mount, when that
    directory exists; when it does not, the run has mounted nothing
    and has logged a warning instead. *)
Theorem static_mounted_when_directory_exists (app : App) (tr : World) :
  run = (Return app, tr) →
  if static_exists env then
    filter (λ r, is_mount r) (routes app) =
      [Mount "/static" "static" "static"] ∧
    MountStatic "/static" "static" "static" ∈ tr
  else
    filter (λ r, is_mount r) (routes app) = [] ∧
    filter (λ ev, is_mount_event ev) tr = [] ∧
    Log WARNING
      " Diretório 'static' não encontrado – rotas estáticas não foram montadas"
      false ∈ tr.
Proof.
  intros [-> ->]%returned_run.
  rewrite final_app_routes, !filter_app, framework_routes_no_mount.
  unfold configured_events, static_events.
  destruct (static_exists env).
  - split; [done|]. apply elem_of_app. left.
    do 8 apply list_elem_of_further. apply elem_of_cons. by left.
  - split; [done|]. split; [done|]. apply elem_of_app. left.
    do 8 apply list_elem_of_further. apply elem_of_cons. by left.
Qed.

(** C4, amended: a run that returns the application has added
    [SessionMiddleware] first and [MiddlewareProtecaoCSRF] second; the
    framework puts each added middleware outside the ones added before,
    so a request enters the server-error layer, then the CSRF
    protection, then the session middleware, then the exception layer,
    and only then reaches the router. *)
Theorem csrf_enters_before_session (app : App) (tr : World) :
  run = (Return app, tr) →
  before tr
    (AddMiddleware (mk_Middleware SessionMiddleware
                      [("secret_key", SECRET_KEY)]))
    (AddMiddleware (mk_Middleware MiddlewareProtecaoCSRF [])) ∧
  request_path app =
    [Layer ServerErrorMiddleware; Layer MiddlewareProtecaoCSRF;
     Layer SessionMiddleware; Layer ExceptionMiddleware; RouterDispatch] ∧
  before (request_path app)
    (Layer MiddlewareProtecaoCSRF) (Layer SessionMiddleware) ∧
  before (request_path app) (Layer SessionMiddleware) RouterDispatch.
Proof.
  intros [-> ->]%returned_run.
  unfold request_path, build_middleware_stack.
  rewrite final_app_middleware.
  split; [|split; [done|split]].
  - exists 0%nat, 1%nat. split; [lia|]. split; reflexivity.
  - exists 1%nat, 2%nat. split; [lia|]. split; reflexivity.
  - exists 2%nat, 4%nat. split; [lia|]. split; reflexivity.
Qed.

(** *** Exception handlers *)

Lemma lookup_exception_handler_first
    (handlers : gmap string ExceptionHandler) (pre rest : list string)
    (cls : string) (h : ExceptionHandler) :
  (∀ c, c ∈ pre → handlers !! c = None) → handlers !! cls = Some h →
  lookup_exception_handler handlers (pre ++ cls :: rest) = Some h.
Proof.
  intros Hpre Hcls. induction pre as [|c pre IH]; simpl.
  - by rewrite Hcls.
  - rewrite (Hpre c) by (apply elem_of_cons; by left).
    apply IH. intros c' Hc'. apply Hpre, elem_of_cons. by right.
Qed.

Lemma lookup_exception_handler_none
    (handlers : gmap string ExceptionHandler) (mro : list string) :
  (∀ c, c ∈ mro → handlers !! c = None) →
  lookup_exception_handler handlers mro = None.
Proof.
  induction mro as [|c mro IH]; intros H; simpl; [done|].
  rewrite (H c) by (apply elem_of_cons; by left).
  apply IH. intros c' Hc'. apply H, elem_of_cons. by right.
Qed.

(** C3, amended: a run that returns the application has registered
    [http_exception_handler] for [StarletteHTTPException],
    [validation_exception_handler] for [RequestValidationError],
    [form_validation_exception_handler] for [ErroValidacaoFormulario]
    and [generic_exception_handler] for [Exception].  Every exception
    that is an instance of [Exception] is then answered by a handler
    whose response is sent, as long as no response has started.  Raised
    under the router, an exception whose first class with a handler is
    one of the three specific classes is answered by that class's handler
    and goes no further.  An exception that no class of its MRO has a
    handler for in the exception layer, or that is raised in a
    middleware, is answered by the generic handler in the server-error
    layer and raised again out of the application. *)
Theorem errors_answered (app : App) (tr : World) :
  run = (Return app, tr) →
  exception_handlers app !! StarletteHTTPException =
    Some http_exception_handler ∧
  exception_handlers app !! RequestValidationError =
    Some validation_exception_handler ∧
  exception_handlers app !! ErroValidacaoFormulario =
    Some form_validation_exception_handler ∧
  exception_handlers app !! Exception = Some generic_exception_handler ∧
  (∀ origin e,
     isinstance e Exception →
     is_Some (answered_by (handle_exception fw app origin e false)) ∧
     response_sent (handle_exception fw app origin e false) = true) ∧
  (∀ e pre cls rest h,
     isinstance e Exception →
     exc_mro e = pre ++ cls :: rest →
     (∀ c, c ∈ pre → exception_layer_handlers fw app !! c = None) →
     (cls, h) ∈ [(StarletteHTTPException, http_exception_handler);
                 (RequestValidationError, validation_exception_handler);
                 (ErroValidacaoFormulario,
                  form_validation_exception_handler)] →
     handle_exception fw app UnderRouter e false =
       mk_Handling (Some h) true None) ∧
  (∀ origin e started,
     isinstance e Exception →
     origin = InMiddleware ∨
     (∀ c, c ∈ exc_mro e → exception_layer_handlers fw app !! c = None) →
     handle_exception fw app origin e started =
       mk_Handling (Some generic_exception_handler) (negb started)
                   (Some e)).
Proof.
  intros [-> ->]%returned_run.
  assert (exception_handlers
            (final_app APP_NAME SECRET_KEY VERSION fw env) !! Exception =
          Some generic_exception_handler) as Hgeneric
    by (rewrite final_app_handlers; by simplify_map_eq).
  assert (∀ cls h,
            (cls, h) ∈ [(StarletteHTTPException, http_exception_handler);
                        (RequestValidationError,
                         validation_exception_handler);
                        (ErroValidacaoFormulario,
                         form_validation_exception_handler)] →
            cls ≠ Exception ∧
            exception_handlers
              (final_app APP_NAME SECRET_KEY VERSION fw env) !! cls =
              Some h) as Hspecific.
  { intros cls h Hin. rewrite final_app_handlers.
    repeat (apply elem_of_cons in Hin as [[= -> ->]|Hin];
            [split; [done|by simplify_map_eq]|]).
    by apply elem_of_nil in Hin. }
  assert (∀ e started,
            isinstance e Exception →
            server_error_layer
              (final_app APP_NAME SECRET_KEY VERSION fw env) e started =
              mk_Handling (Some generic_exception_handler) (negb started)
                          (Some e)) as Hserver.
  { intros e started He. unfold server_error_layer.
    destruct (isinstance e Exception); [|done]. by rewrite Hgeneric. }
  split; [apply Hspecific; apply elem_of_cons; by left|].
  split; [apply Hspecific; do 1 apply list_elem_of_further;
          apply elem_of_cons; by left|].
  split; [apply Hspecific; do 2 apply list_elem_of_further;
          apply elem_of_cons; by left|].
  split; [done|]. split; [|split].
  - intros origin e He. destruct origin; simpl.
    + unfold exception_layer.
      destruct (isinstance e Exception) eqn:He'; [|done].
      destruct (lookup_exception_handler _ _); [by split; [eexists|]|].
      rewrite Hserver by (by rewrite He'). by split; [eexists|].
    + rewrite Hserver by done. by split; [eexists|].
  - intros e pre cls rest h He Hmro Hpre Hin. simpl.
    unfold exception_layer.
    destruct (isinstance e Exception); [|done].
    destruct (Hspecific cls h Hin) as [Hne Hcls].
    rewrite Hmro, (lookup_exception_handler_first _ pre rest cls h);
      [done|done|].
    apply lookup_union_Some_l. by rewrite lookup_delete_ne.
  - intros origin e started He [->|Hnone]; [by apply Hserver|].
    destruct origin; simpl; [|by apply Hserver].
    unfold exception_layer.
    destruct (isinstance e Exception) eqn:He'; [|done].
    rewrite lookup_exception_handler_none by done.
    apply Hserver. by rewrite He'.
Qed.

(** *** The health route *)




End runs.

(** *** The properties on concrete runs *)

Lemma database_prepared_before_routers_witness :
  (example_run (healthy_env true)).2 !! 24%nat =
    Some (IncludeRouter auth_router) ∧
  db_raises (healthy_env true) InicializarDados = None ∧
  ∃ j, (j < 24)%nat ∧
       (example_run (healthy_env true)).2 !! j =
         Some (Call InicializarDados).
Proof.
  split; [reflexivity|].
  apply (database_prepared_before_routers "SimpleBlog" "secret" "1.0.0"
           no_prefix fastapi (healthy_env true) 24 auth_router eq_refl
           InicializarDados).
  by apply (bool_decide_unpack _).
Defined.

Lemma one_router_per_feature_area_witness :
  ∃ app tr,
    example_run (healthy_env true) = (Return app, tr) ∧
    omap included_router (routes app) = omap is_include_router tr ∧
    length (omap included_router (routes app)) = 12%nat.
Proof.
  eexists _, _. split; [reflexivity|].
  pose proof (one_router_per_feature_area "SimpleBlog" "secret" "1.0.0"
                no_prefix fastapi (healthy_env true) _ _ eq_refl)
    as (_ & H1 & _ & _ & H2).
  exact (conj H1 H2).
Defined.

Lemma failed_preparation_stops_bootstrap_witness :
  CriarIndices indices_repo ∈ db_calls ∧
  ∃ c' e' tr,
    c' ∈ db_calls ∧
    db_raises (failing_env (CriarIndices indices_repo) OperationalError) c'
      = Some e' ∧
    example_run (failing_env (CriarIndices indices_repo) OperationalError)
      = (Raise e', tr) ∧
    omap is_include_router tr = [] ∧
    (isinstance e' Exception →
     last tr = Some (Log ERROR (" Erro ao preparar banco de dados: " +:+
                                exc_str e') true)).
Proof.
  assert (CriarIndices indices_repo ∈ db_calls) as Hin
    by (by apply (bool_decide_unpack _)).
  split; [exact Hin|].
  exact (failed_preparation_stops_bootstrap "SimpleBlog" "secret" "1.0.0"
           no_prefix fastapi
           (failing_env (CriarIndices indices_repo) OperationalError)
           (CriarIndices indices_repo) OperationalError Hin eq_refl).
Defined.

(** C6, as stated, fails: where no "static" directory exists the run
    returns an application without any mount, and has mounted nothing. *)
Lemma nothing_mounted_without_directory :
  ∃ app tr,
    example_run (healthy_env false) = (Return app, tr) ∧
    filter (λ r, is_mount r) (routes app) = [] ∧
    filter (λ ev, is_mount_event ev) tr = [].
Proof. eexists _, _. split; [reflexivity|]. split; reflexivity. Qed.

Lemma static_mounted_when_directory_exists_witness :
  ∃ app tr,
    example_run (healthy_env true) = (Return app, tr) ∧
    filter (λ r, is_mount r) (routes app) =
      [Mount "/static" "static" "static"] ∧
    MountStatic "/static" "static" "static" ∈ tr.
Proof.
  eexists _, _. split; [reflexivity|].
  exact (static_mounted_when_directory_exists "SimpleBlog" "secret" "1.0.0"
           no_prefix fastapi (healthy_env true) _ _ eq_refl).
Defined.

(** C4, as stated, fails: on the request path of the returned application
    the session middleware does not come before the CSRF protection; a
    request enters the CSRF protection first, the session middleware
    next. *)
Lemma session_not_before_csrf :
  ∃ app tr,
    example_run (healthy_env true) = (Return app, tr) ∧
    request_path app !! 1%nat = Some (Layer MiddlewareProtecaoCSRF) ∧
    request_path app !! 2%nat = Some (Layer SessionMiddleware) ∧
    ¬ before (request_path app)
        (Layer SessionMiddleware) (Layer MiddlewareProtecaoCSRF).
Proof.
  eexists _, _. split; [reflexivity|].
  split; [reflexivity|]. split; [reflexivity|].
  intros (i & j & Hlt & Hi & Hj).
  destruct i as [|[|[|[|[|i]]]]]; try discriminate Hi.
  destruct j as [|[|[|[|[|j]]]]]; try discriminate Hj. lia.
Qed.

Lemma csrf_enters_before_session_witness :
  ∃ app tr,
    example_run (healthy_env true) = (Return app, tr) ∧
    request_path app =
      [Layer ServerErrorMiddleware; Layer MiddlewareProtecaoCSRF;
       Layer SessionMiddleware; Layer ExceptionMiddleware; RouterDispatch].
Proof.
  eexists _, _. split; [reflexivity|].
  exact (proj1 (proj2 (csrf_enters_before_session "SimpleBlog" "secret"
                         "1.0.0" no_prefix fastapi (healthy_env true) _ _
                         eq_refl))).
Defined.

(** C3, as stated, fails: a [RuntimeError] raised by an endpoint is
    answered by [generic_exception_handler], its response is sent, and the
    error still leaves the application: the server-error layer raises it
    again. *)
Lemma generic_error_propagates :
  ∃ app tr,
    example_run (healthy_env true) = (Return app, tr) ∧
    handle_exception fastapi app UnderRouter RuntimeError false =
      mk_Handling (Some generic_exception_handler) true (Some RuntimeError) ∧
    propagates (handle_exception fastapi app UnderRouter RuntimeError false)
      ≠ None.
Proof.
  eexists _, _. split; [reflexivity|]. split; [by vm_compute|].
  by vm_compute.
Qed.

Lemma errors_answered_witness :
  ∃ app tr,
    example_run (healthy_env true) = (Return app, tr) ∧
    exception_handlers app !! StarletteHTTPException =
      Some http_exception_handler ∧
    response_sent (handle_exception fastapi app InMiddleware OperationalError
                     false) = true ∧
    handle_exception fastapi app UnderRouter
      (mk_PyExc ["fastapi.exceptions.HTTPException"; StarletteHTTPException;
                 "Exception"; "BaseException"; "object"] "404: Not Found")
      false =
      mk_Handling (Some http_exception_handler) true None ∧
    handle_exception fastapi app UnderRouter RuntimeError true =
      mk_Handling (Some generic_exception_handler) false (Some RuntimeError).
Proof.
  eexists _, _. split; [reflexivity|].
  pose proof (errors_answered "SimpleBlog" "secret" "1.0.0"
                no_prefix fastapi (healthy_env true) _ _ eq_refl)
    as (H1 & _ & _ & _ & H5 & H6 & H7).
  split; [exact H1|].
  split; [exact (proj2 (H5 InMiddleware OperationalError I))|]. split.
  - apply (H6 _ ["fastapi.exceptions.HTTPException"]
             StarletteHTTPException
             ["Exception"; "BaseException"; "object"]);
      [exact I|reflexivity| |apply elem_of_cons; by left].
    intros c Hc. apply list_elem_of_singleton in Hc as ->.
    by vm_compute.
  - apply (H7 UnderRouter RuntimeError true I). right. intros c Hc.
    repeat (apply elem_of_cons in Hc as [->|Hc]; [by vm_compute|]).
    by apply elem_of_nil in Hc.
Defined.



End bootstrap_facts.

(** ** More on the article record *)

Module artigo_more.
Import artigo_model observations.
Local Open Scope list_scope.

(** X1: [StatusArtigo(v)] succeeds exactly when [v] is the value of a member,
    and then gives that member; for any other string it fails. *)
Theorem status_by_value (v : string) :
  (∀ s : StatusArtigo, of_value v = Some s ↔ v = value s) ∧
  (of_value v = None ↔ ∀ s : StatusArtigo, value s ≠ v).
Proof.
  assert (∀ s, of_value v = Some s → v = value s) as Hsome.
  { intros s. unfold of_value, members. simpl.
    repeat case_bool_decide; intros [= <-]; done. }
  split.
  - intros s. split; [apply Hsome|]. intros ->. by destruct s.
  - split.
    + intros Hnone s <-. by destruct s.
    + intros Hne. destruct (of_value v) as [s|] eqn:Hv; [|done].
      by destruct (Hne s (eq_sym (Hsome s eq_refl))).
Qed.

(** X2: A member's value stored as the status of a record reads back as that
    member. *)
Theorem status_round_trip (args : Args) (a : Artigo) (s : StatusArtigo) :
  init args = inr a → arg_status args = Some (value s) →
  of_value (status a) = Some s.
Proof.
  intros Ha Hs. apply artigo_facts.init_inr in Ha as (_ & _ & _ & Ha & _).
  rewrite Hs in Ha. injection Ha as <-. by destruct s.
Qed.

Lemma status_round_trip_witness :
  ∃ a, init (only_required 3 "Titulo" "Texto" (value PAUSADO) 1 2) = inr a ∧
       of_value (status a) = Some PAUSADO.
Proof.
  eexists. split; [reflexivity|].
  exact (status_round_trip
           (only_required 3 "Titulo" "Texto" (value PAUSADO) 1 2) _ PAUSADO
           eq_refl eq_refl).
Defined.





End artigo_more.

(** ** More on the bootstrap *)

Module bootstrap_more.
Import python starlette main bootstrap observations bootstrap_facts.
Local Open Scope list_scope.
Local Open Scope nat_scope.

Section runs.
Context (APP_NAME SECRET_KEY VERSION : string).
Context (prefix : Router → option string).
Context (fw : Framework).
Context (env : Env).

Local Abbreviation run :=
  (run_create_app APP_NAME SECRET_KEY VERSION prefix fw env).
Local Abbreviation configured := (configured_events SECRET_KEY env).
Local Abbreviation registration :=
  (registration_events APP_NAME VERSION prefix).
Local Abbreviation cases :=
  (run_cases APP_NAME SECRET_KEY VERSION prefix fw env).

(** *** What the parts of a run contain *)

Lemma calls_of_steps (l : list Step) :
  calls_of (step_event <$> l) = omap step_call l.
Proof.
  unfold calls_of.
  induction l as [|[msg|c] l IH]; [done|..]; cbn in *; congruence.
Qed.

Lemma calls_of_configured : calls_of configured = [].
Proof.
  unfold configured_events, static_events. by destruct (static_exists env).
Qed.

Lemma calls_of_registration : calls_of registration = [].
Proof. reflexivity. Qed.

Lemma calls_of_error (e : PyExc) : calls_of (error_events e) = [].
Proof. unfold error_events. by destruct (isinstance e Exception). Qed.

Lemma errors_of_steps (l : list Step) : errors_of (step_event <$> l) = [].
Proof. induction l as [|[msg|c] l IH]; simpl; done. Qed.

Lemma errors_of_configured : errors_of configured = [].
Proof.
  unfold configured_events, static_events. by destruct (static_exists env).
Qed.

Lemma errors_of_error (e : PyExc) : errors_of (error_events e) = error_events e.
Proof. unfold error_events. by destruct (isinstance e Exception). Qed.

Lemma configuration_of_steps (l : list Step) :
  filter (λ ev, is_configuration ev) (step_event <$> l) = [].
Proof. induction l as [|[msg|c] l IH]; simpl; done. Qed.

Lemma configuration_of_error (e : PyExc) :
  filter (λ ev, is_configuration ev) (error_events e) = [].
Proof. unfold error_events. by destruct (isinstance e Exception). Qed.

(** *** Runs from any world *)

(** [create_app] does not look at the world it starts in and leaves the
    earlier events alone: from a world [w] it gives the result of the run
    from the empty world, and [w] followed by the events of that run. *)
Lemma create_app_frame (w : World) :
  create_app APP_NAME SECRET_KEY VERSION prefix fw env w =
    (run.1, w ++ run.2).
Proof.
  rewrite create_app_parts.
  rewrite (run_bind_return _ _ _ _ _
             (run_configure APP_NAME SECRET_KEY VERSION fw env w)).
  destruct cases as [[Hok ->]|(pre & c & post & e & Hs & Hpre & He & ->)];
    cbn [fst snd].
  - rewrite (run_bind_return _ _ _
               ((w ++ configured) ++ (step_event <$> db_steps)) ()).
    + rewrite run_register. by rewrite <- !app_assoc.
    + apply run_try_return, run_steps_ok.
      intros c Hc. by apply Hok, db_steps_calls.
  - apply run_bind_raise.
    rewrite (run_try_raise _ _ _ _ _ _
               (eq_trans (f_equal (λ l, run_steps env l _) Hs)
                         (run_steps_raise env pre post c e _ Hpre He))).
    rewrite run_on_error. by rewrite <- !app_assoc.
Qed.

(** *** The database calls of a run *)

(** X5: A run that returns the application has made the eleven database calls
    once each, in the order of the source, and no other. *)
Theorem returned_run_calls (app : App) (tr : World) :
  run = (Return app, tr) → calls_of tr = db_calls.
Proof.
  intros [_ ->]%returned_run. unfold calls_of.
  rewrite !omap_app. fold (calls_of configured) (calls_of registration).
  fold (calls_of (step_event <$> db_steps)).
  by rewrite calls_of_configured, calls_of_registration, calls_of_steps.
Qed.

(** X6: When a database call raises, the calls that were made are the ones
    before the first call that raises, which all returned, and that call:
    nothing of the database is touched after the first failure. *)
Theorem calls_stop_at_first_failure (c : DbCall) (e : PyExc) :
  c ∈ db_calls → db_raises env c = Some e →
  ∃ pre c' post e',
    db_calls = pre ++ c' :: post ∧
    (∀ x, x ∈ pre → db_raises env x = None) ∧
    db_raises env c' = Some e' ∧
    run.1 = Raise e' ∧
    calls_of run.2 = pre ++ [c'].
Proof.
  intros Hc He.
  destruct cases as [[Hok _]|(pre & c' & post & e' & Hs & Hpre & He' & ->)].
  - rewrite Hok in He; done.
  - exists (omap step_call pre), c', (omap step_call post), e'.
    split; [|split; [|split; [done|split; [done|]]]].
    + change db_calls with (omap step_call db_steps).
      by rewrite Hs, omap_app.
    + intros x ([msg|x'] & Hin & [= ->])%list_elem_of_omap. by apply Hpre.
    + cbn [snd]. unfold calls_of. rewrite !omap_app.
      fold (calls_of configured) (calls_of (step_event <$> pre))
        (calls_of (error_events e')).
      rewrite calls_of_configured, calls_of_steps, calls_of_error.
      done.
Qed.

(** *** What a run logs as an error *)

(** X7: The only record of level ERROR that a run of [create_app] writes is
    the one for the exception it ends with, and only when that exception
    is an instance of [Exception]; a run that returns writes none, and an
    exception outside [Exception] (a [KeyboardInterrupt]) passes unlogged. *)
Theorem errors_logged :
  errors_of run.2 =
    match run.1 with
    | Return _ => []
    | Raise e =>
        if isinstance e Exception
        then [Log ERROR (" Erro ao preparar banco de dados: " +:+ exc_str e)
                  true]
        else []
    end.
Proof.
  destruct cases as [[Hok ->]|(pre & c' & post & e' & Hs & Hpre & He' & ->)];
    cbn [fst snd]; unfold errors_of; rewrite !filter_app;
    fold (errors_of configured).
  - by rewrite errors_of_configured.
  - fold (errors_of (step_event <$> pre)) (errors_of (error_events e')).
    by rewrite errors_of_configured, errors_of_steps, errors_of_error.
Qed.

(** *** Two facts shared by the module's properties *)

Lemma returned_run_errors (app : App) (tr : World) :
  run = (Return app, tr) → errors_of tr = [].
Proof.
  intros [_ ->]%returned_run. unfold errors_of. rewrite !filter_app.
  fold (errors_of configured). by rewrite errors_of_configured.
Qed.

Lemma raising_run (c : DbCall) (e : PyExc) :
  c ∈ db_calls → db_raises env c = Some e →
  ∃ pre c' post e',
    db_calls = pre ++ c' :: post ∧
    (∀ x, x ∈ pre → db_raises env x = None) ∧
    db_raises env c' = Some e' ∧
    run.1 = Raise e'.
Proof.
  intros Hc He.
  destruct cases as [[Hok _]|(pre & c' & post & e' & Hs & Hpre & He' & ->)].
  - rewrite Hok in He; done.
  - exists (omap step_call pre), c', (omap step_call post), e'.
    split; [|split; [|done]].
    + change db_calls with (omap step_call db_steps).
      by rewrite Hs, omap_app.
    + intros x ([msg|x'] & Hin & [= ->])%list_elem_of_omap. by apply Hpre.
Qed.

(** *** Configuration comes first *)

(** In the model every run begins with the events of the configuration
    part, which hold no database call, and configures nothing after. *)
Lemma run_begins_configured :
  ∃ rest,
    run.2 = configured ++ rest ∧
    calls_of configured = [] ∧
    filter (λ ev, is_configuration ev) rest = [].
Proof.
  destruct cases as [[Hok ->]|(pre & c' & post & e' & Hs & Hpre & He' & ->)];
    cbn [snd]; eexists; (split; [reflexivity|]);
    (split; [apply calls_of_configured|]).
  - done.
  - by rewrite !filter_app, configuration_of_steps, configuration_of_error.
Qed.

(** X8: The database is only touched by a configured application: when a
    database call is made, the two middlewares and the four exception
    handlers have been registered earlier in the run, and no middleware,
    handler or mount is registered from then on. *)
Theorem configured_before_database (i : nat) (c : DbCall) :
  run.2 !! i = Some (Call c) →
  (∀ ev,
     ev ∈ [AddMiddleware (mk_Middleware SessionMiddleware
                            [("secret_key", SECRET_KEY)]);
           AddMiddleware (mk_Middleware MiddlewareProtecaoCSRF []);
           AddExceptionHandler StarletteHTTPException http_exception_handler;
           AddExceptionHandler RequestValidationError
             validation_exception_handler;
           AddExceptionHandler ErroValidacaoFormulario
             form_validation_exception_handler;
           AddExceptionHandler Exception generic_exception_handler] →
     ∃ j, j < i ∧ run.2 !! j = Some ev) ∧
  (∀ j ev, run.2 !! j = Some ev → is_configuration ev → j < i).
Proof.
  destruct run_begins_configured as (rest & -> & Hcalls & Hrest). intros Hi.
  assert (length configured ≤ i) as Hlen.
  { destruct (decide (i < length configured)) as [Hlt|]; [|lia].
    rewrite lookup_app_l in Hi by done.
    apply list_elem_of_lookup_2 in Hi.
    assert (c ∈ calls_of configured) as Hc
      by (apply list_elem_of_omap; by exists (Call c)).
    rewrite Hcalls in Hc. by apply elem_of_nil in Hc. }
  split.
  - intros ev Hev.
    assert (ev ∈ configured) as Hin.
    { unfold configured_events. apply elem_of_app. left.
      repeat (apply elem_of_cons in Hev as [->|Hev];
              [repeat first [apply list_elem_of_here
                            | apply list_elem_of_further]|]).
      by apply elem_of_nil in Hev. }
    apply list_elem_of_lookup_1 in Hin as [j Hj].
    pose proof (lookup_lt_Some _ _ _ Hj) as Hlt.
    exists j. split; [lia|]. by rewrite lookup_app_l.
  - intros j ev Hj Hev.
    destruct (decide (j < length configured)) as [Hlt|Hge]; [lia|].
    rewrite lookup_app_r in Hj by lia.
    apply list_elem_of_lookup_2 in Hj.
    assert (ev ∈ filter (λ ev, is_configuration ev) rest) as Hin
      by (by apply list_elem_of_filter).
    rewrite Hrest in Hin. by apply elem_of_nil in Hin.
Qed.

(** *** The log of the routers *)

Lemma router_events_next (l : list Router) (i : nat) (r : Router) :
  (l ≫= router_events prefix) !! i = Some (IncludeRouter r) →
  (l ≫= router_events prefix) !! S i =
    Some (Log INFO (" Router incluído: " +:+
                    default "sem prefixo" (prefix r)) false).
Proof.
  revert i. induction l as [|r' l IH]; intros i; [done|].
  rewrite bind_cons. destruct i as [|[|i]]; simpl.
  - intros [= ->]. by destruct (prefix r).
  - done.
  - apply IH.
Qed.

(** X9: Each registration of a router is followed at once by an INFO record
    with the prefix of that router, or with "sem prefixo" for a router
    that has no prefix attribute. *)
Theorem router_logged (i : nat) (r : Router) :
  run.2 !! i = Some (IncludeRouter r) →
  run.2 !! S i =
    Some (Log INFO (" Router incluído: " +:+
                    default "sem prefixo" (prefix r)) false).
Proof.
  destruct cases as [[Hok ->]|(pre & c' & post & e' & Hs & Hpre & He' & ->)];
    cbn [snd]; intros Hi.
  - rewrite app_assoc in Hi |- *.
    destruct (decide (i < length (configured ++ (step_event <$> db_steps))))
      as [Hlt|Hge].
    { rewrite lookup_app_l in Hi by done. exfalso.
      refine (no_router_lookup _ _ _ _ Hi).
      by rewrite omap_app, configured_no_router, steps_no_router. }
    rewrite lookup_app_r in Hi |- * by lia.
    replace (S i - length (configured ++ (step_event <$> db_steps)))%nat
      with (S (i - length (configured ++ (step_event <$> db_steps))))
      by lia.
    unfold registration_events in *.
    set (k := (i - length (configured ++ (step_event <$> db_steps)))%nat)
      in *.
    destruct (decide (k < length (routers ≫= router_events prefix)))
      as [Hk|Hk].
    + rewrite lookup_app_l in Hi by done.
      pose proof (router_events_next _ _ _ Hi) as Hnext.
      rewrite lookup_app_l; [done|]. by apply lookup_lt_Some in Hnext.
    + rewrite lookup_app_r in Hi by lia.
      by destruct (k - length (routers ≫= router_events prefix))%nat
        as [|[|?]].
  - exfalso.
    by apply (no_router_lookup _ _ _
                (raised_run_no_router SECRET_KEY env _ _ _) Hi).
Qed.

(** *** The handler table *)

(** X10: The returned application has the handlers of the framework for every
    class but the four that [create_app] registers: these four entries are
    set, whatever the framework had there, and no other entry is touched. *)
Theorem other_handlers_untouched (app : App) (tr : World) (cls : string) :
  run = (Return app, tr) → cls ∉ registered_classes →
  exception_handlers app !! cls = fastapi_exception_handlers fw !! cls.
Proof.
  intros [-> _]%returned_run Hcls. rewrite final_app_handlers.
  unfold registered_classes in Hcls.
  rewrite !lookup_insert_ne; [done|..]; intros <-; apply Hcls;
    by apply (bool_decide_unpack _).
Qed.
End runs.

Lemma returned_run_calls_witness :
  ∃ app tr,
    example_run (healthy_env false) = (Return app, tr) ∧
    calls_of tr = db_calls.
Proof.
  eexists _, _. split; [reflexivity|].
  exact (returned_run_calls "SimpleBlog" "secret" "1.0.0" no_prefix fastapi
           (healthy_env false) _ _ eq_refl).
Defined.

Lemma calls_stop_at_first_failure_witness :
  ∃ pre c' post e',
    db_calls = pre ++ c' :: post ∧
    (∀ x, x ∈ pre →
       db_raises (failing_env (CriarTabela chamado_repo) OperationalError) x
         = None) ∧
    db_raises (failing_env (CriarTabela chamado_repo) OperationalError) c'
      = Some e' ∧
    (example_run (failing_env (CriarTabela chamado_repo) OperationalError)).1
      = Raise e' ∧
    calls_of
      (example_run
         (failing_env (CriarTabela chamado_repo) OperationalError)).2 =
      pre ++ [c'].
Proof.
  apply (calls_stop_at_first_failure "SimpleBlog" "secret" "1.0.0" no_prefix
           fastapi (failing_env (CriarTabela chamado_repo) OperationalError)
           (CriarTabela chamado_repo) OperationalError);
    [by apply (bool_decide_unpack _)|reflexivity].
Defined.

Lemma configured_before_database_witness :
  (example_run (healthy_env true)).2 !! 11 =
    Some (Call (CriarTabela usuario_repo)) ∧
  ∃ j, j < 11 ∧
       (example_run (healthy_env true)).2 !! j =
         Some (AddExceptionHandler Exception generic_exception_handler).
Proof.
  split; [reflexivity|].
  apply (proj1 (configured_before_database "SimpleBlog" "secret" "1.0.0"
                  no_prefix fastapi (healthy_env true) 11
                  (CriarTabela usuario_repo) eq_refl)).
  do 5 apply list_elem_of_further. apply list_elem_of_here.
Defined.

Lemma router_logged_witness :
  (example_run (healthy_env true)).2 !! 26%nat =
    Some (IncludeRouter chamados_router) ∧
  (example_run (healthy_env true)).2 !! 27%nat =
    Some (Log INFO " Router incluído: sem prefixo" false).
Proof.
  split; [reflexivity|].
  exact (router_logged "SimpleBlog" "secret" "1.0.0" no_prefix fastapi
           (healthy_env true) 26 chamados_router eq_refl).
Defined.

Lemma other_handlers_untouched_witness :
  ∃ app tr,
    example_run (healthy_env true) = (Return app, tr) ∧
    exception_handlers app
      !! "fastapi.exceptions.WebSocketRequestValidationError" =
    Some (framework_handler "websocket_request_validation_exception_handler").
Proof.
  eexists _, _. split; [reflexivity|].
  rewrite (other_handlers_untouched "SimpleBlog" "secret" "1.0.0" no_prefix
             fastapi (healthy_env true) _ _
             "fastapi.exceptions.WebSocketRequestValidationError" eq_refl).
  - reflexivity.
  - intros H. by apply (bool_decide_pack _) in H.
Defined.

End bootstrap_more.

(** ** The module and its [__main__] block *)

Module script_facts.
Import python starlette main bootstrap observations script.
Local Open Scope list_scope.
Local Open Scope nat_scope.

Section runs.
Context (APP_NAME SECRET_KEY VERSION HOST : string).
Context (PORT : Z) (RELOAD : bool).
Context (prefix : Router → option string).
Context (fw : Framework).
Context (env : Env).

Local Abbreviation boot :=
  (run_create_app APP_NAME SECRET_KEY VERSION prefix fw env).
Local Abbreviation main_run :=
  (run_main_module APP_NAME SECRET_KEY VERSION HOST PORT RELOAD prefix fw
     env).
Local Abbreviation the_banner := (banner APP_NAME VERSION HOST PORT RELOAD).

Lemma run_lift {A : Type} (m : M A) (p : Process) :
  lift m p = ((m []).1, p ++ (Ev <$> (m []).2)).
Proof. unfold lift. by destruct (m []). Qed.

(** The run of the module, by the run of [create_app] in it. *)
Lemma run_main (is_main : bool) (uv : option PyExc) :
  main_run is_main uv =
    match boot with
    | (Raise e, tr) => (Raise e, Ev <$> tr)
    | (Return _, tr) =>
        if is_main then
          (outcome uv,
           (Ev <$> (tr ++ the_banner)) ++ [UvicornRun (the_call HOST PORT)] ++
           (Ev <$> aftermath uv))
        else (Return (), Ev <$> tr)
    end.
Proof.
  unfold run_main_module, main_module, run_create_app.
  unfold mbind at 1, P_bind at 1. rewrite run_lift.
  destruct (create_app _ _ _ _ _ _ []) as [[app|e] tr]; cbn [fst snd];
    [|done].
  destruct is_main; [|done].
  rewrite fmap_app.
  unfold outcome, aftermath.
  destruct uv as [e|]; [destruct (isinstance e KeyboardInterrupt) eqn:Hk;
                        [|destruct (isinstance e Exception) eqn:He]|];
    cbv [mbind P_bind mret P_ret lift logger_info logger_error emit
         try_excepts handle uvicorn_run reraise the_call];
    rewrite ?Hk, ?He; cbn; by rewrite <- ?app_assoc.
Qed.

Lemma uvicorn_calls_ev (tr : World) : uvicorn_calls (Ev <$> tr) = [].
Proof. unfold uvicorn_calls. induction tr; simpl; done. Qed.

Lemma events_of_ev (tr : World) : events_of (Ev <$> tr) = tr.
Proof. unfold events_of. induction tr; cbn in *; congruence. Qed.

(** X11: [uvicorn.run] is called at most once: exactly when the module runs as
    a script and [create_app] has returned, and then for "main:app" on
    HOST and PORT at log level "info", without a reload keyword, whatever
    RELOAD is and however the server ends. *)
Theorem server_call (is_main : bool) (uv : option PyExc) :
  uvicorn_calls (main_run is_main uv).2 =
    match boot.1 with
    | Return _ =>
        if is_main then
          [{| uv_app := "main:app"; uv_host := HOST; uv_port := PORT;
              uv_reload := None; uv_log_level := "info" |}]
        else []
    | Raise _ => []
    end.
Proof.
  rewrite run_main. destruct boot as [[app|e] tr]; cbn [fst snd].
  - destruct is_main; cbn [snd]; [|apply uvicorn_calls_ev].
    unfold uvicorn_calls. rewrite !omap_app.
    fold (uvicorn_calls (Ev <$> tr ++ the_banner))
      (uvicorn_calls (Ev <$> aftermath uv)).
    by rewrite !uvicorn_calls_ev.
  - apply uvicorn_calls_ev.
Qed.

(** X12: When a database call of the bootstrap raises, the module ends with
    the exception of the first call that raised (every call before it
    returned), having done nothing beyond [create_app]: no banner, no
    server, also when run as a script. *)
Theorem failed_bootstrap_ends_module (is_main : bool) (uv : option PyExc)
    (c : DbCall) (e : PyExc) :
  c ∈ db_calls → db_raises env c = Some e →
  ∃ pre c' post e',
    db_calls = pre ++ c' :: post ∧
    (∀ x, x ∈ pre → db_raises env x = None) ∧
    db_raises env c' = Some e' ∧
    main_run is_main uv = (Raise e', Ev <$> boot.2).
Proof.
  intros Hc He.
  destruct (bootstrap_more.raising_run APP_NAME SECRET_KEY VERSION prefix fw
              env c e Hc He) as (pre & c' & post & e' & Hsplit & Hpre & He'
                                 & Hrun).
  exists pre, c', post, e'. split; [done|]. split; [done|]. split; [done|].
  rewrite run_main. destruct boot as [[app|e''] tr]; [done|].
  cbn [fst snd] in *. congruence.
Qed.

(** X13: Imported rather than run, the module only builds the application: its
    events are those of [create_app], and it ends as [create_app] does. *)
Theorem imported_module (uv : option PyExc) :
  main_run false uv =
    (match boot.1 with
     | Return _ => Return ()
     | Raise e => Raise e
     end, Ev <$> boot.2).
Proof. rewrite run_main. by destruct boot as [[app|e] tr]. Qed.

(** X14: The server is started only after the whole bootstrap and the banner:
    what the process did before a call of [uvicorn.run] is exactly a run
    of [create_app] that returned the application, followed by the six
    lines of the banner. *)
Theorem server_starts_last (is_main : bool) (uv : option PyExc) (i : nat)
    (call : UvicornCall) :
  (main_run is_main uv).2 !! i = Some (UvicornRun call) →
  is_main = true ∧
  (∃ app, boot.1 = Return app) ∧
  take i (main_run is_main uv).2 = Ev <$> (boot.2 ++ the_banner).
Proof.
  rewrite run_main. destruct boot as [[app|e] tr]; cbn [fst snd].
  - destruct is_main; cbn [snd]; intros Hi.
    + split; [done|]. split; [by exists app|].
      assert (i = length (Ev <$> tr ++ the_banner)) as ->.
      { destruct (decide (i < length (Ev <$> tr ++ the_banner))) as [Hlt|Hge].
        - rewrite lookup_app_l in Hi by done.
          apply list_elem_of_lookup_2, list_elem_of_fmap in Hi
            as (ev & [=] & _).
        - rewrite lookup_app_r in Hi by lia.
          destruct (i - length (Ev <$> tr ++ the_banner)) as [|k] eqn:Hk;
            [lia|].
          simpl in Hi. apply list_elem_of_lookup_2, list_elem_of_fmap in Hi
            as (ev & [=] & _). }
      by rewrite take_app_length.
    + apply list_elem_of_lookup_2, list_elem_of_fmap in Hi as (ev & [=] & _).
  - intros Hi.
    apply list_elem_of_lookup_2, list_elem_of_fmap in Hi as (ev & [=] & _).
Qed.

(** X15: A [KeyboardInterrupt] that ends the server is not an error: the
    script logs that the user closed the server, as its last record, and
    ends normally. *)
Theorem interrupt_ends_quietly (app : App) (tr : World) (e : PyExc) :
  boot = (Return app, tr) → isinstance e KeyboardInterrupt →
  (main_run true (Some e)).1 = Return () ∧
  last (main_run true (Some e)).2 =
    Some (Ev (Log INFO " Servidor encerrado pelo usuário" false)) ∧
  errors_of (events_of (main_run true (Some e)).2) = [].
Proof.
  intros Hboot Hk. rewrite run_main, Hboot. cbn [fst snd].
  unfold outcome, aftermath.
  destruct (isinstance e KeyboardInterrupt); [|done].
  split; [done|]. split; [by rewrite last_app|].
  pose proof (bootstrap_more.returned_run_errors APP_NAME SECRET_KEY VERSION
                prefix fw env _ _ Hboot) as Herr.
  unfold events_of. rewrite !omap_app.
  fold (events_of (Ev <$> tr ++ the_banner)).
  rewrite events_of_ev. unfold errors_of in *.
  by rewrite !filter_app, Herr.
Qed.

(** X16: Any other exception of the server that is an instance of [Exception]
    is logged as an error with its traceback, as the last record, and
    raised again. *)
Theorem server_error_logged_and_raised (app : App) (tr : World) (e : PyExc) :
  boot = (Return app, tr) →
  isinstance e KeyboardInterrupt = false → isinstance e Exception →
  (main_run true (Some e)).1 = Raise e ∧
  last (main_run true (Some e)).2 =
    Some (Ev (Log ERROR (" Erro ao iniciar servidor: " +:+ exc_str e) true)).
Proof.
  intros Hboot Hk He. rewrite run_main, Hboot. cbn [fst snd].
  unfold outcome, aftermath. rewrite Hk.
  destruct (isinstance e Exception); [|done].
  split; [done|]. by rewrite last_app.
Qed.

(** X17: An exception of the server outside both clauses (a [SystemExit])
    passes through: nothing is logged after the call of [uvicorn.run]. *)
Theorem other_exception_passes (app : App) (tr : World) (e : PyExc) :
  boot = (Return app, tr) →
  isinstance e KeyboardInterrupt = false → isinstance e Exception = false →
  (main_run true (Some e)).1 = Raise e ∧
  last (main_run true (Some e)).2 = Some (UvicornRun (the_call HOST PORT)).
Proof.
  intros Hboot Hk He. rewrite run_main, Hboot. cbn [fst snd].
  unfold outcome, aftermath. rewrite Hk, He.
  split; [done|]. rewrite fmap_nil, app_nil_r. by rewrite last_snoc.
Qed.

(** X18: The banner tells the value of RELOAD, but that value does not reach
    the server: with RELOAD set, a script run logs " Hot reload: Ativado"
    and still calls [uvicorn.run] without the reload keyword. *)
Theorem reload_is_only_announced (app : App) (tr : World)
    (uv : option PyExc) :
  boot = (Return app, tr) →
  Ev (Log INFO (" Hot reload: " +:+
                (if RELOAD then "Ativado" else "Desativado")) false)
    ∈ (main_run true uv).2 ∧
  ∀ call, UvicornRun call ∈ (main_run true uv).2 → uv_reload call = None.
Proof.
  intros Hboot. rewrite run_main, Hboot. cbn [snd]. split.
  - apply elem_of_app. left. apply list_elem_of_fmap_2.
    apply elem_of_app. right. unfold banner.
    do 3 apply list_elem_of_further. apply elem_of_cons. by left.
  - intros call Hin.
    apply elem_of_app in Hin as [Hin|Hin];
      [by apply list_elem_of_fmap in Hin as (ev & [=] & _)|].
    apply elem_of_cons in Hin as [[= ->]|Hin]; [done|].
    by apply list_elem_of_fmap in Hin as (ev & [=] & _).
Qed.
End runs.

Lemma failed_bootstrap_ends_module_witness :
  ∃ pre c' post e',
    db_calls = pre ++ c' :: post ∧
    (∀ x, x ∈ pre →
       db_raises (failing_env InicializarDados OperationalError) x = None) ∧
    db_raises (failing_env InicializarDados OperationalError) c' = Some e' ∧
    example_main (failing_env InicializarDados OperationalError) false None =
      (Raise e',
       Ev <$> (example_run
                 (failing_env InicializarDados OperationalError)).2).
Proof.
  apply (failed_bootstrap_ends_module "SimpleBlog" "secret" "1.0.0"
           "127.0.0.1" 8000 false no_prefix fastapi
           (failing_env InicializarDados OperationalError) true None
           InicializarDados OperationalError);
    [by apply (bool_decide_unpack _)|reflexivity].
Defined.

Lemma server_starts_last_witness :
  (example_main (healthy_env true) true None).2 !! 56 =
    Some (UvicornRun (the_call "127.0.0.1" 8000)) ∧
  take 56 (example_main (healthy_env true) true None).2 =
    Ev <$> ((example_run (healthy_env true)).2 ++
            banner "SimpleBlog" "1.0.0" "127.0.0.1" 8000 true).
Proof.
  split; [reflexivity|].
  exact (proj2 (proj2 (server_starts_last "SimpleBlog" "secret" "1.0.0"
                         "127.0.0.1" 8000 true no_prefix fastapi
                         (healthy_env true) true None 56 _ eq_refl))).
Defined.

Lemma interrupt_ends_quietly_witness :
  (example_main (healthy_env true) false (Some KeyboardInterrupt_exc)).1 =
    Return () ∧
  last (example_main (healthy_env true) false (Some KeyboardInterrupt_exc)).2
    = Some (Ev (Log INFO " Servidor encerrado pelo usuário" false)).
Proof.
  pose proof (interrupt_ends_quietly "SimpleBlog" "secret" "1.0.0"
                "127.0.0.1" 8000 false no_prefix fastapi (healthy_env true)
                _ _ KeyboardInterrupt_exc eq_refl I) as (H1 & H2 & _).
  exact (conj H1 H2).
Defined.

Lemma server_error_logged_and_raised_witness :
  (example_main (healthy_env true) false (Some OSError_exc)).1 =
    Raise OSError_exc ∧
  last (example_main (healthy_env true) false (Some OSError_exc)).2 =
    Some (Ev (Log ERROR
                " Erro ao iniciar servidor: [Errno 98] Address already in use"
                true)).
Proof.
  exact (server_error_logged_and_raised "SimpleBlog" "secret" "1.0.0"
           "127.0.0.1" 8000 false no_prefix fastapi (healthy_env true)
           _ _ OSError_exc eq_refl eq_refl I).
Defined.

Lemma other_exception_passes_witness :
  (example_main (healthy_env true) false (Some SystemExit_exc)).1 =
    Raise SystemExit_exc ∧
  last (example_main (healthy_env true) false (Some SystemExit_exc)).2 =
    Some (UvicornRun (the_call "127.0.0.1" 8000)).
Proof.
  exact (other_exception_passes "SimpleBlog" "secret" "1.0.0"
           "127.0.0.1" 8000 false no_prefix fastapi (healthy_env true)
           _ _ SystemExit_exc eq_refl eq_refl eq_refl).
Defined.

Lemma reload_is_only_announced_witness :
  Ev (Log INFO " Hot reload: Ativado" false)
    ∈ (example_main (healthy_env true) true None).2 ∧
  ∀ call, UvicornRun call ∈ (example_main (healthy_env true) true None).2 →
          uv_reload call = None.
Proof.
  exact (reload_is_only_announced "SimpleBlog" "secret" "1.0.0"
           "127.0.0.1" 8000 true no_prefix fastapi (healthy_env true)
           _ _ None eq_refl).
Defined.

End script_facts.
